(** * Session and duty-cycle controller of the Helium ESP32 GPS tracker

    A shallow embedding of [main/ttn.ino] (the LMIC wrapper: event
    dispatch, frame counter persistence, activation, uplink submission)
    and of the send / sleep entry points of the main sketch, followed by
    the properties of the specification that concern them.

    Conventions.
    - [uint32_t] and [uint8_t] values are [Z] with the wrap-around written
      out ([wrap32], [wrap8]).
    - The preferences store (ESP32 NVS, namespace "lora") is a finite map
      from key names to typed values, with a log of the writes that
      reached it.
    - The radio library (MCCI LMIC) is an external collaborator: the model
      keeps the fields the wrapper reads or sets and a log of the calls
      made to it.
    - Loops whose index is a [uint8_t] are run with fuel; [None] means the
      loop has not returned within the fuel given. *)

From stdpp Require Import base option list gmap strings.
From Stdlib Require Import ZArith Lia.
From Stdlib.Strings Require Import Byte.

Local Open Scope Z_scope.

(** ** Machine integers *)

Definition UINT32_MAX : Z := 4294967295.
Definition wrap32 (z : Z) : Z := z mod 4294967296.
Definition wrap8 (z : Z) : Z := z mod 256.
Definition is_u32 (z : Z) : Prop := 0 <= z <= UINT32_MAX.
Definition is_u8 (z : Z) : Prop := 0 <= z <= 255.

(** ** Events

    [ev_t] of the radio library, extended by the four application events
    that [configuration.h] adds (EV_QUEUED, EV_PENDING, EV_ACK,
    EV_RESPONSE). Observers receive them as a [uint8_t] tag. *)

Inductive ev_t : Type :=
  | EV_JOINING | EV_JOINED | EV_JOIN_FAILED | EV_REJOIN_FAILED
  | EV_TXCOMPLETE | EV_RESET | EV_RXCOMPLETE | EV_LINK_DEAD | EV_TXSTART
  | EV_QUEUED | EV_PENDING | EV_ACK | EV_RESPONSE.

#[global] Instance ev_t_eq_dec : EqDecision ev_t.
Proof. solve_decision. Defined.

(** An observer is a function pointer; what the callee does with the
    event is the application's business, the dispatcher only calls it.
    Each call is recorded, oldest first. (The one observer of the sketch
    only prints for the events that the functions below raise.) *)

Definition fptr : Type := nat.

(** ** Build-time configuration ([configuration.h], [credentials.h]) *)

Inductive activation : Type := USE_ABP | USE_OTAA.

Record Config : Type := {
  ACTIVATION : activation;
  DEVADDR : Z;
  NWKSKEY : list byte;
  APPSKEY : list byte;
  LORAWAN_SF : Z;
  LORAWAN_PORT : Z;
  LORAWAN_CONFIRMED_EVERY : Z;
  SEND_INTERVAL : Z;
  SLEEP_BETWEEN_MESSAGES : bool;
  MESSAGE_TO_SLEEP_DELAY : Z
}.

(** ** The radio library as seen from the wrapper *)

Definition OP_NONE : Z := 0.
Definition OP_JOINING : Z := 4.
Definition OP_TXDATA : Z := 8.
Definition OP_TXRXPEND : Z := 128.
Definition DR_SF9 : Z := 3.

Record Session : Type := {
  netid : Z;
  devaddr : Z;
  nwkKey : list byte;
  artKey : list byte
}.

Record Uplink : Type := {
  txPort : Z;
  txData : list byte;
  txConf : Z
}.

Inductive lmic_call : Type :=
  | Call_reset
  | Call_setLinkCheckMode (on : Z)
  | Call_setDrTxpow (dr txpow : Z)
  | Call_startJoining
  | Call_setSession (sess : Session)
  | Call_setSeqnoUp (seqno : Z)
  | Call_setTxData2 (up : Uplink).

Record lmic_t : Type := {
  opmode : Z;
  seqnoUp : Z;
  session : option Session;
  pendTx : option Uplink;
  dn2Dr : Z;
  dataBeg : Z;
  dataLen : Z;
  frame : list byte;
  calls : list lmic_call
}.

Definition lmic_log (c : lmic_call) (l : lmic_t) : lmic_t :=
  {| opmode := opmode l; seqnoUp := seqnoUp l; session := session l;
     pendTx := pendTx l; dn2Dr := dn2Dr l; dataBeg := dataBeg l;
     dataLen := dataLen l; frame := frame l; calls := calls l ++ [c] |}.

(** Session and pending transfers are discarded. *)
Definition LMIC_reset (l : lmic_t) : lmic_t :=
  lmic_log Call_reset
    {| opmode := OP_NONE; seqnoUp := 0; session := None; pendTx := None;
       dn2Dr := dn2Dr l; dataBeg := 0; dataLen := 0; frame := frame l;
       calls := calls l |}.

Definition LMIC_setLinkCheckMode (on : Z) (l : lmic_t) : lmic_t :=
  lmic_log (Call_setLinkCheckMode on) l.

Definition LMIC_setDrTxpow (dr txpow : Z) (l : lmic_t) : lmic_t :=
  lmic_log (Call_setDrTxpow dr txpow) l.

(** A join is scheduled unless a session is installed already. *)
Definition LMIC_startJoining (l : lmic_t) : lmic_t :=
  lmic_log Call_startJoining
    {| opmode := match session l with
                 | None => Z.lor (opmode l) OP_JOINING
                 | Some _ => opmode l
                 end;
       seqnoUp := seqnoUp l; session := session l; pendTx := pendTx l;
       dn2Dr := dn2Dr l; dataBeg := dataBeg l; dataLen := dataLen l;
       frame := frame l; calls := calls l |}.

Definition LMIC_setSession (id addr : Z) (nwk art : list byte) (l : lmic_t)
  : lmic_t :=
  let sess := {| netid := id; devaddr := addr; nwkKey := nwk; artKey := art |} in
  lmic_log (Call_setSession sess)
    {| opmode := Z.ldiff (opmode l) OP_JOINING;
       seqnoUp := seqnoUp l; session := Some sess; pendTx := pendTx l;
       dn2Dr := dn2Dr l; dataBeg := dataBeg l; dataLen := dataLen l;
       frame := frame l; calls := calls l |}.

Definition LMIC_setSeqnoUp (seqno : Z) (l : lmic_t) : lmic_t :=
  lmic_log (Call_setSeqnoUp seqno)
    {| opmode := opmode l; seqnoUp := seqno; session := session l;
       pendTx := pendTx l; dn2Dr := dn2Dr l; dataBeg := dataBeg l;
       dataLen := dataLen l; frame := frame l; calls := calls l |}.

(** The first [dlen] bytes of [data] become the pending uplink. *)
Definition LMIC_setTxData2 (port : Z) (data : list byte) (dlen : Z)
    (confirmed : Z) (l : lmic_t) : lmic_t :=
  let up := {| txPort := port; txData := take (Z.to_nat dlen) data;
               txConf := confirmed |} in
  lmic_log (Call_setTxData2 up)
    {| opmode := Z.lor (opmode l) OP_TXDATA;
       seqnoUp := seqnoUp l; session := session l; pendTx := Some up;
       dn2Dr := dn2Dr l; dataBeg := dataBeg l; dataLen := dataLen l;
       frame := frame l; calls := calls l |}.

Definition set_dn2Dr (dr : Z) (l : lmic_t) : lmic_t :=
  {| opmode := opmode l; seqnoUp := seqnoUp l; session := session l;
     pendTx := pendTx l; dn2Dr := dr; dataBeg := dataBeg l;
     dataLen := dataLen l; frame := frame l; calls := calls l |}.

(** The uplinks handed to the radio so far, oldest first. *)
Definition submitted (l : lmic_t) : list Uplink :=
  omap (fun c => match c with Call_setTxData2 up => Some up | _ => None end)
       (calls l).

(** ** The preferences store *)

Inductive pref_value : Type :=
  | PUInt (v : Z)
  | PBytes (b : list byte).

Record nvs_t : Type := {
  nvs_ro_ok : bool;   (* does begin("lora", true) succeed *)
  nvs_rw_ok : bool;   (* does begin("lora", false) succeed *)
  nvs_data : gmap string pref_value;
  nvs_writes : list (string * pref_value)
}.

Definition p_begin (readOnly : bool) (n : nvs_t) : bool :=
  if readOnly then nvs_ro_ok n else nvs_rw_ok n.

(** Reads through a handle that was not opened give the default, and
    a key of another type counts as absent. *)
Definition p_getUInt (started : bool) (key : string) (default : Z)
    (n : nvs_t) : Z :=
  if started then
    match nvs_data n !! key with
    | Some (PUInt v) => v
    | _ => default
    end
  else default.

(** Returns the number of bytes copied and the bytes: the stored length
    when the value fits the buffer, 0 when it is absent or too long. *)
Definition p_getBytes (started : bool) (key : string) (maxLen : Z)
    (n : nvs_t) : Z * list byte :=
  if started then
    match nvs_data n !! key with
    | Some (PBytes b) =>
        if maxLen <? Z.of_nat (length b) then (0, [])
        else (Z.of_nat (length b), b)
    | _ => (0, [])
    end
  else (0, []).

Definition p_put (key : string) (v : pref_value) (n : nvs_t) : nvs_t :=
  {| nvs_ro_ok := nvs_ro_ok n; nvs_rw_ok := nvs_rw_ok n;
     nvs_data := <[key := v]> (nvs_data n);
     nvs_writes := nvs_writes n ++ [(key, v)] |}.

Definition p_putUInt (key : string) (v : Z) : nvs_t -> nvs_t :=
  p_put key (PUInt v).

Definition p_putBytes (key : string) (b : list byte) : nvs_t -> nvs_t :=
  p_put key (PBytes b).

Definition p_clear (n : nvs_t) : nvs_t :=
  {| nvs_ro_ok := nvs_ro_ok n; nvs_rw_ok := nvs_rw_ok n;
     nvs_data := ∅; nvs_writes := nvs_writes n |}.

(** The durable writes of the frame counter, oldest first. *)
Definition count_writes (n : nvs_t) : list Z :=
  omap (fun w => match w with
                 | (k, PUInt v) => if String.eqb k "count" then Some v else None
                 | _ => None
                 end) (nvs_writes n).

(** ** State of the firmware

    [count] lives in RTC memory; [lastWriteMsec] is the function-local
    static of [ttn_set_cnt]; [clock] is what [millis()] returns; [invoked]
    records every call of an observer. *)

Record State : Type := {
  count : Z;
  lastWriteMsec : Z;
  _lmic_callbacks : list fptr;
  LMIC : lmic_t;
  prefs : nvs_t;
  clock : Z;
  invoked : list (fptr * ev_t);
  packetSent : bool;
  packetQueued : bool;
  ssd1306_found : bool
}.

Definition set_count (c : Z) (s : State) : State :=
  {| count := c; lastWriteMsec := lastWriteMsec s;
     _lmic_callbacks := _lmic_callbacks s; LMIC := LMIC s; prefs := prefs s;
     clock := clock s; invoked := invoked s; packetSent := packetSent s;
     packetQueued := packetQueued s; ssd1306_found := ssd1306_found s |}.

Definition set_lastWriteMsec (t : Z) (s : State) : State :=
  {| count := count s; lastWriteMsec := t;
     _lmic_callbacks := _lmic_callbacks s; LMIC := LMIC s; prefs := prefs s;
     clock := clock s; invoked := invoked s; packetSent := packetSent s;
     packetQueued := packetQueued s; ssd1306_found := ssd1306_found s |}.

Definition set_callbacks (cbs : list fptr) (s : State) : State :=
  {| count := count s; lastWriteMsec := lastWriteMsec s;
     _lmic_callbacks := cbs; LMIC := LMIC s; prefs := prefs s;
     clock := clock s; invoked := invoked s; packetSent := packetSent s;
     packetQueued := packetQueued s; ssd1306_found := ssd1306_found s |}.

Definition with_LMIC (f : lmic_t -> lmic_t) (s : State) : State :=
  {| count := count s; lastWriteMsec := lastWriteMsec s;
     _lmic_callbacks := _lmic_callbacks s; LMIC := f (LMIC s);
     prefs := prefs s; clock := clock s; invoked := invoked s;
     packetSent := packetSent s; packetQueued := packetQueued s;
     ssd1306_found := ssd1306_found s |}.

Definition with_prefs (f : nvs_t -> nvs_t) (s : State) : State :=
  {| count := count s; lastWriteMsec := lastWriteMsec s;
     _lmic_callbacks := _lmic_callbacks s; LMIC := LMIC s;
     prefs := f (prefs s); clock := clock s; invoked := invoked s;
     packetSent := packetSent s; packetQueued := packetQueued s;
     ssd1306_found := ssd1306_found s |}.

Definition set_clock (t : Z) (s : State) : State :=
  {| count := count s; lastWriteMsec := lastWriteMsec s;
     _lmic_callbacks := _lmic_callbacks s; LMIC := LMIC s; prefs := prefs s;
     clock := t; invoked := invoked s; packetSent := packetSent s;
     packetQueued := packetQueued s; ssd1306_found := ssd1306_found s |}.

Definition set_packet (sent queued : bool) (s : State) : State :=
  {| count := count s; lastWriteMsec := lastWriteMsec s;
     _lmic_callbacks := _lmic_callbacks s; LMIC := LMIC s; prefs := prefs s;
     clock := clock s; invoked := invoked s; packetSent := sent;
     packetQueued := queued; ssd1306_found := ssd1306_found s |}.

(** Calling the observer [f] with [message]. *)
Definition invoke (f : fptr) (message : ev_t) (s : State) : State :=
  {| count := count s; lastWriteMsec := lastWriteMsec s;
     _lmic_callbacks := _lmic_callbacks s; LMIC := LMIC s; prefs := prefs s;
     clock := clock s; invoked := invoked s ++ [(f, message)];
     packetSent := packetSent s; packetQueued := packetQueued s;
     ssd1306_found := ssd1306_found s |}.

Definition millis (s : State) : Z := clock s.

(** ** Event dispatch *)

(** [for (uint8_t i = 0; i < _lmic_callbacks.size(); i++)]: the index
    wraps at 256, the size is re-read on every round. *)
Fixpoint _ttn_callback_loop (fuel : nat) (i : Z) (message : ev_t) (s : State)
  : option State :=
  match fuel with
  | O => None
  | S fuel' =>
      if i <? Z.of_nat (length (_lmic_callbacks s)) then
        match _lmic_callbacks s !! Z.to_nat i with
        | Some f =>
            _ttn_callback_loop fuel' (wrap8 (i + 1)) message (invoke f message s)
        | None => None (* not reached: 0 <= i < size *)
        end
      else Some s
  end.

Definition _ttn_callback (fuel : nat) (message : ev_t) (s : State)
  : option State :=
  _ttn_callback_loop fuel 0 message s.

Definition ttn_register (callback : fptr) (s : State) : State :=
  set_callbacks (_lmic_callbacks s ++ [callback]) s.

(** ** Downlink payload *)

Definition ttn_response_len (s : State) : Z := dataLen (LMIC s).

(** Indexing a C array outside its bounds is undefined; the model stops
    there and reports which access it was. For a write, the buffer as it
    was written up to that point is kept. *)
Inductive fault : Type :=
  | ReadOutOfBounds (idx : Z)
  | WriteOutOfBounds (idx : Z) (written : list byte).

Fixpoint ttn_response_loop (fuel : nat) (i : Z) (l : lmic_t)
    (buffer : list byte) : option (fault + list byte) :=
  match fuel with
  | O => None
  | S fuel' =>
      if i <? dataLen l then
        match frame l !! Z.to_nat (dataBeg l + i) with
        | None => Some (inl (ReadOutOfBounds (dataBeg l + i)))
        | Some b =>
            if i <? Z.of_nat (length buffer) then
              ttn_response_loop fuel' (wrap8 (i + 1)) l
                                (<[Z.to_nat i := b]> buffer)
            else Some (inl (WriteOutOfBounds i buffer))
        end
      else Some (inr buffer)
  end.

(** [buffer] is the caller's array (its length is its capacity), [len]
    the size the caller announces. *)
Definition ttn_response (fuel : nat) (buffer : list byte) (len : Z)
    (s : State) : option (fault + list byte) :=
  ttn_response_loop fuel 0 (LMIC s) buffer.

(** ** Frame counter *)

Definition initCount (s : State) : State :=
  if count s =? 0 then
    if p_begin true (prefs s)
    then set_count (p_getUInt true "count" 0 (prefs s)) s
    else s
  else s.

Definition ttn_get_count (s : State) : Z := count s.

Definition FIVE_MINUTES : Z := 5 * 60 * 1000.

(** The test that guards the write in [ttn_set_cnt]; the subtraction is
    unsigned. *)
Definition write_due (now last : Z) : bool :=
  (now <? last) || (FIVE_MINUTES <? wrap32 (now - last)).

Definition ttn_set_cnt (s : State) : State :=
  let s1 := with_LMIC (LMIC_setSeqnoUp (count s)) s in
  let now := millis s1 in
  if write_due now (lastWriteMsec s1) then
    let s2 := set_lastWriteMsec now s1 in
    if p_begin false (prefs s2)
    then with_prefs (p_putUInt "count" (count s2)) s2
    else s2
  else s1.

Definition ttn_save_counter (s : State) : State :=
  if p_begin false (prefs s)
  then with_prefs (p_putUInt "count" (count s)) s
  else s.

Definition ttn_erase_prefs (s : State) : State :=
  if p_begin false (prefs s) then with_prefs p_clear s else s.

(** ** Uplink *)

Definition radio_busy (s : State) : bool :=
  negb (Z.land (opmode (LMIC s)) OP_TXRXPEND =? 0).

Definition ttn_send (fuel : nat) (data : list byte) (data_size : Z)
    (port : Z) (confirmed : bool) (s : State) : option State :=
  let s1 := ttn_set_cnt s in
  if radio_busy s1 then _ttn_callback fuel EV_PENDING s1
  else
    let s2 :=
      with_LMIC (LMIC_setTxData2 port data data_size
                                 (if confirmed then 1 else 0)) s1 in
    s3 ← _ttn_callback fuel EV_QUEUED s2;
    Some (set_count (wrap32 (count s3 + 1)) s3).

(** ** Activation *)

Definition ttn_sf (sf : Z) (s : State) : State :=
  with_LMIC (LMIC_setDrTxpow sf 14) s.

(** The channel plan and the clock-error setting of the radio are left
    out; they do not touch the state kept here. *)
Definition ttn_join (cfg : Config) (fuel : nat) (s : State) : option State :=
  let s := with_LMIC LMIC_reset s in
  let s := with_LMIC (LMIC_setLinkCheckMode 0) s in
  let s := ttn_sf (LORAWAN_SF cfg) s in
  match ACTIVATION cfg with
  | USE_ABP =>
      let s := with_LMIC (LMIC_setSession 1 (DEVADDR cfg)
                                          (NWKSKEY cfg) (APPSKEY cfg)) s in
      let s := with_LMIC (set_dn2Dr DR_SF9) s in
      _ttn_callback fuel EV_JOINED s
  | USE_OTAA =>
      let s := with_LMIC LMIC_startJoining s in
      let started := p_begin true (prefs s) in
      let netId := p_getUInt started "netId" UINT32_MAX (prefs s) in
      let devAddr := p_getUInt started "devAddr" UINT32_MAX (prefs s) in
      let nwk := p_getBytes started "nwkKey" 16 (prefs s) in
      let art := p_getBytes started "artKey" 16 (prefs s) in
      let keysgood := (nwk.1 =? 16) && (art.1 =? 16) in
      if negb keysgood then Some (with_LMIC LMIC_startJoining s)
      else
        let s := with_LMIC (LMIC_setSession netId devAddr nwk.2 art.2) s in
        _ttn_callback fuel EV_JOINED s
  end.

(** ** The main sketch: sending and sleeping *)

(** [payload] is what [buildPacketNew] leaves in [txBuffer]. *)
Definition trySendNew (cfg : Config) (fuel : nat) (payload : list byte)
    (s : State) : option State :=
  let s := set_packet false (packetQueued s) s in
  let confirmed :=
    if 0 <? LORAWAN_CONFIRMED_EVERY cfg
    then ttn_get_count s mod LORAWAN_CONFIRMED_EVERY cfg =? 0
    else false in
  let s := set_packet (packetSent s) true s in
  ttn_send fuel payload (wrap8 (Z.of_nat (length payload)))
           (wrap8 (LORAWAN_PORT cfg)) confirmed s.

(** [t1] and [t2] are the two readings of [millis()] in the expression,
    in the order in which they are taken. *)
Definition sleep_for (cfg : Config) (t1 t2 : Z) : Z :=
  if t1 <? wrap32 (SEND_INTERVAL cfg)
  then wrap32 (SEND_INTERVAL cfg - t2)
  else wrap32 (SEND_INTERVAL cfg).

Definition delay (ms : Z) (s : State) : State :=
  set_clock (wrap32 (clock s + ms)) s.

(** The number of milliseconds handed to [doDeepSleep], if the build
    sleeps between messages at all. The expression reads [millis()]
    twice: the test sees the clock as it stands, the subtraction sees it
    [dt] milliseconds later. *)
Definition sleep (cfg : Config) (dt : Z) (s : State) : option Z :=
  if SLEEP_BETWEEN_MESSAGES cfg then
    let s := if ssd1306_found s then delay (MESSAGE_TO_SLEEP_DELAY cfg) s
             else s in
    let t1 := millis s in
    let t2 := millis (delay dt s) in
    Some (sleep_for cfg t1 t2)
  else None.

(** ** Sequences of calls

    Between two calls the run loop of the radio and the passing of time
    change [LMIC.opmode] and the clock; a request carries the values the
    call finds. *)

Definition arrive (now opm : Z) (s : State) : State :=
  let l := LMIC s in
  set_clock now
    (with_LMIC (fun _ =>
       {| opmode := opm; seqnoUp := seqnoUp l; session := session l;
          pendTx := pendTx l; dn2Dr := dn2Dr l; dataBeg := dataBeg l;
          dataLen := dataLen l; frame := frame l; calls := calls l |}) s).

Record SendReq : Type := {
  rq_now : Z;
  rq_opmode : Z;
  rq_data : list byte;
  rq_size : Z;
  rq_port : Z;
  rq_confirmed : bool
}.

Definition accepted (rq : SendReq) : bool :=
  Z.land (rq_opmode rq) OP_TXRXPEND =? 0.

Definition do_send (fuel : nat) (rq : SendReq) (s : State) : option State :=
  ttn_send fuel (rq_data rq) (rq_size rq) (rq_port rq) (rq_confirmed rq)
           (arrive (rq_now rq) (rq_opmode rq) s).

Fixpoint run_sends (fuel : nat) (rqs : list SendReq) (s : State)
  : option State :=
  match rqs with
  | [] => Some s
  | rq :: rest => s' ← do_send fuel rq s; run_sends fuel rest s'
  end.

Definition accepted_count (rqs : list SendReq) : Z :=
  Z.of_nat (length (filter (fun rq => accepted rq = true) rqs)).

(** ** Boot

    What the variables hold when the program starts: [count] is what the
    RTC memory kept (0 after a power-on), the static of [ttn_set_cnt] has
    its initialiser, the registry is empty and the radio state is zeroed. *)

Definition lmic_zero : lmic_t :=
  {| opmode := OP_NONE; seqnoUp := 0; session := None; pendTx := None;
     dn2Dr := 0; dataBeg := 0; dataLen := 0; frame := replicate 64 x00;
     calls := [] |}.

Definition nvs_of (ro rw : bool) (data : gmap string pref_value) : nvs_t :=
  {| nvs_ro_ok := ro; nvs_rw_ok := rw; nvs_data := data; nvs_writes := [] |}.

Definition boot (rtc_count : Z) (store : nvs_t) (now : Z) : State :=
  {| count := rtc_count; lastWriteMsec := UINT32_MAX; _lmic_callbacks := [];
     LMIC := lmic_zero; prefs := store; clock := now; invoked := [];
     packetSent := false; packetQueued := false; ssd1306_found := false |}.

(** Subscribing the observers [obs] one after the other. *)
Definition register_all (obs : list fptr) (s : State) : State :=
  foldl (fun s f => ttn_register f s) s obs.

(** ** Notions used in the statements *)

(** Calling the observers [fs] one after the other. *)
Definition deliver (message : ev_t) (fs : list fptr) (s : State) : State :=
  foldl (fun s f => invoke f message s) s fs.

(** The registry fits the [uint8_t] index of the dispatch loop. *)
Definition registry_fits (s : State) : Prop :=
  (length (_lmic_callbacks s) <= 255)%nat.

(** What [ttn_send] returns once the dispatch has enough fuel. *)
Definition sent (data : list byte) (data_size port : Z) (confirmed : bool)
    (s : State) : State :=
  let s1 := ttn_set_cnt s in
  if radio_busy s then deliver EV_PENDING (_lmic_callbacks s) s1
  else
    set_count (wrap32 (count s + 1))
      (deliver EV_QUEUED (_lmic_callbacks s)
         (with_LMIC (LMIC_setTxData2 port data data_size
                                     (if confirmed then 1 else 0)) s1)).

(** What a send reads or writes, the log of observer calls apart: the
    counter, the sequence number and the pending uplink of the radio, the
    time of the last counter write and the stored counter. *)
Definition send_state (s : State)
  : Z * Z * option Uplink * Z * option pref_value :=
  (count s, seqnoUp (LMIC s), pendTx (LMIC s), lastWriteMsec s,
   nvs_data (prefs s) !! "count").

(** ** Sample inputs *)

Definition store_empty : nvs_t := nvs_of true true ∅.

Definition req_idle (now : Z) : SendReq :=
  {| rq_now := now; rq_opmode := OP_NONE; rq_data := [x03; x88];
     rq_size := 2; rq_port := 10; rq_confirmed := false |}.

Definition req_busy (now : Z) : SendReq :=
  {| rq_now := now; rq_opmode := OP_TXRXPEND; rq_data := [x03; x88];
     rq_size := 2; rq_port := 10; rq_confirmed := false |}.

(** One observer registered, as the sketch does in [setup]. *)
Definition booted (rtc_count : Z) (store : nvs_t) (now : Z) : State :=
  ttn_register 1%nat (boot rtc_count store now).

(** The requests of [rqs] come at non-decreasing times, none before
    [lo] and none after [hi]. *)
Fixpoint rapid (lo hi : Z) (rqs : list SendReq) : Prop :=
  match rqs with
  | [] => True
  | rq :: rest => lo <= rq_now rq <= hi /\ rapid (rq_now rq) hi rest
  end.

(** A session key is there when it is stored as exactly 16 bytes. *)
Definition key_stored (n : nvs_t) (key : string) : Prop :=
  exists b, nvs_data n !! key = Some (PBytes b) /\ length b = 16%nat.

Definition cfg_abp : Config :=
  {| ACTIVATION := USE_ABP; DEVADDR := 0x26011234;
     NWKSKEY := replicate 16 xa1; APPSKEY := replicate 16 xb2;
     LORAWAN_SF := 5; LORAWAN_PORT := 10; LORAWAN_CONFIRMED_EVERY := 10;
     SEND_INTERVAL := 20000; SLEEP_BETWEEN_MESSAGES := true;
     MESSAGE_TO_SLEEP_DELAY := 5000 |}.

Definition cfg_otaa : Config :=
  {| ACTIVATION := USE_OTAA; DEVADDR := 0;
     NWKSKEY := []; APPSKEY := [];
     LORAWAN_SF := 5; LORAWAN_PORT := 10; LORAWAN_CONFIRMED_EVERY := 10;
     SEND_INTERVAL := 20000; SLEEP_BETWEEN_MESSAGES := true;
     MESSAGE_TO_SLEEP_DELAY := 5000 |}.

(** A record with both keys but neither network id nor device address. *)
Definition store_keys_only : nvs_t :=
  nvs_of true true
    (<["nwkKey" := PBytes (replicate 16 xa1)]>
       (<["artKey" := PBytes (replicate 16 xb2)]> ∅)).

(** A record whose second key was cut short. *)
Definition store_short_key : nvs_t :=
  nvs_of true true
    (<["netId" := PUInt 19]>
       (<["devAddr" := PUInt 0x26011234]>
          (<["nwkKey" := PBytes (replicate 16 xa1)]>
             (<["artKey" := PBytes (replicate 9 xb2)]> ∅)))).

(** The session that an ABP build installs. *)
Definition abp_session (cfg : Config) : Session :=
  {| netid := 1; devaddr := DEVADDR cfg;
     nwkKey := NWKSKEY cfg; artKey := APPSKEY cfg |}.

(** How often the wrapper has asked the radio for a join handshake. *)
Definition is_startJoining (c : lmic_call) : bool :=
  match c with Call_startJoining => true | _ => false end.

Definition join_requests (l : lmic_t) : nat :=
  length (filter (fun c => is_startJoining c = true) (calls l)).

(** ** Sequences of send attempts from the main sketch *)

Record Wake : Type := {
  wk_now : Z;
  wk_opmode : Z;
  wk_payload : list byte
}.

Definition do_try (cfg : Config) (fuel : nat) (wk : Wake) (s : State)
  : option State :=
  trySendNew cfg fuel (wk_payload wk) (arrive (wk_now wk) (wk_opmode wk) s).

Fixpoint run_tries (cfg : Config) (fuel : nat) (wks : list Wake) (s : State)
  : option State :=
  match wks with
  | [] => Some s
  | wk :: rest => s' ← do_try cfg fuel wk s; run_tries cfg fuel rest s'
  end.

Definition radio_idle_at (wk : Wake) : Prop :=
  Z.land (wk_opmode wk) OP_TXRXPEND = 0.

(** The confirmed flag of every uplink handed to the radio, oldest first. *)
Definition confirmed_flags (s : State) : list Z :=
  map txConf (submitted (LMIC s)).

(** The flag the sketch computes when the counter stands at [c]. *)
Definition confirm_flag (N c : Z) : Z := if c mod N =? 0 then 1 else 0.

(** The specification's wording: "N is evaluated against the
    post-increment counter value", [c] being the counter before the send. *)
Definition spec_confirm_flag (N c : Z) : Z :=
  if (c + 1) mod N =? 0 then 1 else 0.

(** Fifteen wake-ups, one every twenty seconds, the radio idle each time. *)
Definition fifteen_wakes : list Wake :=
  map (fun k => {| wk_now := 20000 * k; wk_opmode := OP_NONE;
                   wk_payload := [x03; x88] |}) (seqZ 1 15).


(** ** The downlink as the radio leaves it *)

(** The received payload: [dataLen] bytes of [frame] from [dataBeg] on. *)
Definition downlink (l : lmic_t) : list byte :=
  take (Z.to_nat (dataLen l)) (drop (Z.to_nat (dataBeg l)) (frame l)).

(** [dataBeg] and [dataLen] are [u1_t] fields and the payload lies inside
    the frame buffer. *)
Definition downlink_in_frame (l : lmic_t) : Prop :=
  is_u8 (dataBeg l) /\ is_u8 (dataLen l) /\
  dataBeg l + dataLen l <= Z.of_nat (length (frame l)).

(** A received frame: a 13-byte header, then six bytes of payload. *)
Definition lmic_received : lmic_t :=
  {| opmode := OP_NONE; seqnoUp := 7; session := None; pendTx := None;
     dn2Dr := DR_SF9; dataBeg := 13; dataLen := 6;
     frame := replicate 13 x00 ++ [x0a; x0b; x0c; x0d; x0e; x0f]
              ++ replicate 45 x00;
     calls := [] |}.

Definition received (s : State) : State := with_LMIC (fun _ => lmic_received) s.

(** * The rest of the wrapper and of the sketch *)

From Stdlib Require Import Ascii.

(** ** Build options that the functions below consult *)

Record Build : Type := {
  base : Config;
  SINGLE_CHANNEL_GATEWAY : bool;
  LORAWAN_ADR : bool;
  PREFS_DISCARD : bool;
  BUTTON_PIN : Z
}.

(** ** Events from the radio *)

Definition TXRX_ACK : Z := 128.

(** A radio without a session has its ids and keys zeroed. *)
Definition zero_session : Session :=
  {| netid := 0; devaddr := 0;
     nwkKey := replicate 16 x00; artKey := replicate 16 x00 |}.

Definition LMIC_getSessionKeys (l : lmic_t) : Session :=
  default zero_session (session l).

(** Disabling the other channels is part of the channel plan, which the
    model leaves to the radio; what remains of [forceTxSingleChannelDr]
    is the data rate. *)
Definition forceTxSingleChannelDr (b : Build) (s : State) : State :=
  ttn_sf (LORAWAN_SF (base b)) s.

(** What [onEvent] does for [EV_JOINED] before it passes the event on:
    the session that the radio negotiated is written to the store. *)
Definition persist_session (s : State) : State :=
  let k := LMIC_getSessionKeys (LMIC s) in
  if p_begin false (prefs s) then
    with_prefs (fun n =>
      p_putBytes "artKey" (artKey k)
        (p_putBytes "nwkKey" (nwkKey k)
           (p_putUInt "devAddr" (devaddr k)
              (p_putUInt "netId" (netid k) n)))) s
  else s.

(** [txrxFlags] is [LMIC.txrxFlags] as the radio has set it when it
    raises the event. *)
Definition onEvent (b : Build) (txrxFlags : Z) (fuel : nat) (event : ev_t)
    (s : State) : option State :=
  s1 ← match event with
       | EV_JOINED =>
           let s := if SINGLE_CHANNEL_GATEWAY b
                    then forceTxSingleChannelDr b s else s in
           let s := if LORAWAN_ADR b then s
                    else with_LMIC (LMIC_setLinkCheckMode 0) s in
           Some (persist_session s)
       | EV_TXCOMPLETE =>
           s ← (if negb (Z.land txrxFlags TXRX_ACK =? 0)
                then _ttn_callback fuel EV_ACK s else Some s);
           if negb (dataLen (LMIC s) =? 0)
           then _ttn_callback fuel EV_RESPONSE s else Some s
       | EV_RXCOMPLETE =>
           if negb (dataLen (LMIC s) =? 0)
           then _ttn_callback fuel EV_RESPONSE s else Some s
       | _ => Some s
       end;
  _ttn_callback fuel event s1.

(** The events that reach the observers when the radio raises [event],
    in the order in which they go out. *)
Definition raised (txrxFlags : Z) (l : lmic_t) (event : ev_t) : list ev_t :=
  match event with
  | EV_TXCOMPLETE =>
      (if negb (Z.land txrxFlags TXRX_ACK =? 0) then [EV_ACK] else [])
      ++ (if negb (dataLen l =? 0) then [EV_RESPONSE] else [])
  | EV_RXCOMPLETE => if negb (dataLen l =? 0) then [EV_RESPONSE] else []
  | _ => []
  end ++ [event].

(** Every observer in [fs] receives every event of [evs], event by event. *)
Definition deliveries (evs : list ev_t) (fs : list fptr)
  : list (fptr * ev_t) :=
  flat_map (fun e => map (fun f => (f, e)) fs) evs.

(** Several events published one after the other. *)
Fixpoint publish_all (fuel : nat) (evs : list ev_t) (s : State)
  : option State :=
  match evs with
  | [] => Some s
  | e :: rest => s' ← _ttn_callback fuel e s; publish_all fuel rest s'
  end.

(** ** The stored counter *)

Definition stored_count (n : nvs_t) : option Z :=
  match nvs_data n !! "count" with
  | Some (PUInt v) => Some v
  | _ => None
  end.

(** The counter in the store is not ahead of the live one. *)
Definition counter_not_ahead (s : State) : Prop :=
  forall v, stored_count (prefs s) = Some v -> v <= count s.

(** The keys of a session are 16-byte arrays. *)
Definition session_wf (k : Session) : Prop :=
  length (nwkKey k) = 16%nat /\ length (artKey k) = 16%nat.

Definition sample_session : Session :=
  {| netid := 19; devaddr := 0x260b5f3a;
     nwkKey := replicate 16 x5a; artKey := replicate 16 xc3 |}.

Definition build_otaa : Build :=
  {| base := cfg_otaa; SINGLE_CHANNEL_GATEWAY := false; LORAWAN_ADR := false;
     PREFS_DISCARD := true; BUTTON_PIN := 38 |}.

(** The radio has just completed a join that gave it the session [k]. *)
Definition joined_with (k : Session) (s : State) : State :=
  with_LMIC (LMIC_setSession (netid k) (devaddr k) (nwkKey k) (artKey k)) s.

(** ** Printing bytes in hexadecimal *)

Definition hex_digit (d : Z) : ascii :=
  if d <? 10 then ascii_of_nat (Z.to_nat (48 + d))
  else ascii_of_nat (Z.to_nat (55 + d)).

(** [Serial.print(n, HEX)] of the Arduino core: the digits of [n] in base
    16, most significant first, capitals, no padding. *)
Fixpoint printNumber (fuel : nat) (n : Z) (acc : string) : string :=
  match fuel with
  | O => acc
  | S fuel' =>
      let acc' := String (hex_digit (n mod 16)) acc in
      if n / 16 =? 0 then acc' else printNumber fuel' (n / 16) acc'
  end.

Definition Serial_print_HEX (n : Z) : string := printNumber 32 n "".

(** What [printHex2] sends to the serial port. *)
Definition printHex2 (v : Z) : string :=
  let v := Z.land v 255 in
  (if v <? 16 then "0" else "") +:+ Serial_print_HEX v.

(** [snprintf(buffer, 6, "%02X", b)] for a byte. *)
Definition snprintf_02X (b : byte) : string :=
  let v := Z.of_N (Byte.to_N b) in
  String (hex_digit (v / 16)) (String (hex_digit (v mod 16)) "").

(** Reading a hexadecimal digit back. *)
Definition hex_value (c : ascii) : Z :=
  let n := Z.of_nat (nat_of_ascii c) in
  if n <? 58 then n - 48 else n - 55.

Definition parse_hex2 (s : string) : option Z :=
  match s with
  | String hi (String lo EmptyString) => Some (16 * hex_value hi + hex_value lo)
  | _ => None
  end.

(** ** The device EUI *)

(** [*p++ = b] on a buffer of bytes. *)
Definition poke (i : Z) (b : byte) (r : fault + list byte) : fault + list byte :=
  match r with
  | inl e => inl e
  | inr buf =>
      if (0 <=? i) && (i <? Z.of_nat (length buf))
      then inr (<[Z.to_nat i := b]> buf)
      else inl (WriteOutOfBounds i buf)
  end.

(** [dmac] is what [esp_efuse_mac_get_default] delivers, six bytes. *)
Definition gen_lora_deveui (dmac : list byte) (pdeveui : list byte)
  : fault + list byte :=
  let r := poke 0 xff (inr pdeveui) in
  let r := poke 1 xfe r in
  foldl (fun r i =>
           match dmac !! Z.to_nat (5 - i) with
           | Some b => poke (2 + i) b r
           | None => match r with
                     | inl e => inl e
                     | inr _ => inl (ReadOutOfBounds (5 - i))
                     end
           end) r (seqZ 0 6).

Definition is_zero_byte (b : byte) : bool := Byte.eqb b x00.

(** The state of the array [DEVEUI] after [initDevEUI]. *)
Definition initDevEUI (dmac : list byte) (DEVEUI : list byte)
  : fault + list byte :=
  let needInit := forallb is_zero_byte DEVEUI in
  if needInit then gen_lora_deveui dmac DEVEUI else inr DEVEUI.

(** ** The sketch: its own state *)

Record Sketch : Type := {
  ttn : State;
  autoScaleTX : bool;
  adjusted_SEND_INTERVAL : Z;
  justSendNow : bool;
  wasPressed : bool;     (* static of [loop] *)
  minPressMs : Z;        (* static of [loop] *)
  screen : list string   (* what [screen_print] was given, oldest first *)
}.

Definition with_ttn (f : State -> State) (k : Sketch) : Sketch :=
  {| ttn := f (ttn k); autoScaleTX := autoScaleTX k;
     adjusted_SEND_INTERVAL := adjusted_SEND_INTERVAL k;
     justSendNow := justSendNow k; wasPressed := wasPressed k;
     minPressMs := minPressMs k; screen := screen k |}.

Definition screen_print (msg : string) (k : Sketch) : Sketch :=
  {| ttn := ttn k; autoScaleTX := autoScaleTX k;
     adjusted_SEND_INTERVAL := adjusted_SEND_INTERVAL k;
     justSendNow := justSendNow k; wasPressed := wasPressed k;
     minPressMs := minPressMs k; screen := screen k ++ [msg] |}.

Definition set_autoScaleTX (on : bool) (interval : Z) (k : Sketch) : Sketch :=
  {| ttn := ttn k; autoScaleTX := on; adjusted_SEND_INTERVAL := interval;
     justSendNow := justSendNow k; wasPressed := wasPressed k;
     minPressMs := minPressMs k; screen := screen k |}.

Definition set_justSendNow (v : bool) (k : Sketch) : Sketch :=
  {| ttn := ttn k; autoScaleTX := autoScaleTX k;
     adjusted_SEND_INTERVAL := adjusted_SEND_INTERVAL k;
     justSendNow := v; wasPressed := wasPressed k;
     minPressMs := minPressMs k; screen := screen k |}.

Definition set_press (pressed : bool) (since : Z) (k : Sketch) : Sketch :=
  {| ttn := ttn k; autoScaleTX := autoScaleTX k;
     adjusted_SEND_INTERVAL := adjusted_SEND_INTERVAL k;
     justSendNow := justSendNow k; wasPressed := pressed;
     minPressMs := since; screen := screen k |}.

Definition nl : string := String "010" "".
Definition line (msg : string) : string := msg +:+ nl.

(** ** The observer of the sketch

    Output to the serial port is left out. *)

(** [for (uint8_t i = 0; i < len; i++)] over the copied downlink. *)
Fixpoint print_response_loop (fuel : nat) (i len : Z) (data : list byte)
    (k : Sketch) : option (fault + Sketch) :=
  match fuel with
  | O => None
  | S fuel' =>
      if i <? len then
        match data !! Z.to_nat i with
        | None => Some (inl (ReadOutOfBounds i))
        | Some b =>
            print_response_loop fuel' (wrap8 (i + 1)) len data
                                (screen_print (snprintf_02X b) k)
        end
      else Some (inr k)
  end.

Definition when (c : bool) (f : Sketch -> Sketch) (k : Sketch) : Sketch :=
  if c then f k else k.

(** The array [data] is created with [len] elements; its initial
    contents are taken to be zero. *)
Definition callback (fuel : nat) (message : ev_t) (k : Sketch)
  : option (fault + Sketch) :=
  let ttn_joined := bool_decide (EV_JOINED = message) in
  let k := when (bool_decide (EV_JOINING = message))
             (fun k => if ttn_joined
                       then screen_print (line "Helium joining...") k
                       else screen_print (line "Joined Helium!") k) k in
  let k := when (bool_decide (EV_JOIN_FAILED = message))
             (screen_print (line "Helium join failed")) k in
  let k := when (bool_decide (EV_REJOIN_FAILED = message))
             (screen_print (line "Helium rejoin failed")) k in
  let k := when (bool_decide (EV_RESET = message))
             (screen_print (line "Reset Helium connection")) k in
  let k := when (bool_decide (EV_LINK_DEAD = message))
             (screen_print (line "Helium link dead")) k in
  let k := when (bool_decide (EV_ACK = message))
             (screen_print (line "ACK received")) k in
  let k := when (bool_decide (EV_PENDING = message))
             (screen_print (line "Message discarded")) k in
  let k := when (bool_decide (EV_QUEUED = message))
             (screen_print (line "Message queued")) k in
  let sent_branch :=
    if bool_decide (EV_TXCOMPLETE = message) && packetQueued (ttn k) then
      let k := screen_print (line "Message sent") k in
      let l := LMIC (ttn k) in
      (* the only access to memory in the branch:
         [LMIC.dataLen == 6 && LMIC.frame[LMIC.dataBeg-1] == 2] *)
      if (dataLen l =? 6)
         && negb ((0 <=? dataBeg l - 1)
                  && (dataBeg l - 1 <? Z.of_nat (length (frame l))))
      then inl (ReadOutOfBounds (dataBeg l - 1))
      else inr (with_ttn (set_packet true false) k)
    else inr k in
  match sent_branch with
  | inl e => Some (inl e)
  | inr k =>
      if bool_decide (EV_RESPONSE = message) then
        let k := screen_print "[Helium] Response: " k in
        let len := ttn_response_len (ttn k) in
        match ttn_response fuel (replicate (Z.to_nat len) x00) len (ttn k) with
        | None => None
        | Some (inl e) => Some (inl e)
        | Some (inr data) =>
            match print_response_loop fuel 0 len data k with
            | None => None
            | Some (inl e) => Some (inl e)
            | Some (inr k) => Some (inr (screen_print nl k))
            end
        end
      else Some (inr k)
  end.

(** The frame byte in front of a six-byte downlink can be read. *)
Definition port_byte_readable (l : lmic_t) : Prop :=
  dataLen l = 6 -> 1 <= dataBeg l <= Z.of_nat (length (frame l)).

(** ** Going to sleep *)

Definition wrap64 (z : Z) : Z := z mod 18446744073709551616.

(** What [doDeepSleep] arms before the processor stops: the wake-up timer
    in microseconds and the mask of the wake-up pins; and the number of
    seconds it announces. *)
Record SleepPlan : Type := {
  announced_seconds : Z;
  ext1_mask : Z;
  timer_us : Z
}.

Definition doDeepSleep (b : Build) (msecToWake : Z) : SleepPlan :=
  {| announced_seconds := msecToWake / 1000;
     ext1_mask := wrap64 (Z.shiftl 1 (BUTTON_PIN b));
     timer_us := wrap64 (msecToWake * 1000) |}.

(** ** One round of [loop]

    The GPS, the run loop of the radio and the screen are collaborators;
    what they change arrives in the state before the round. [button_low]
    is what [digitalRead(BUTTON_PIN)] finds. *)

Inductive loop_result : Type :=
  | Running (k : Sketch)
  | Asleep (plan : SleepPlan)
  | Restarted (k : Sketch).

Definition loop_button (b : Build) (fuel : nat) (button_low : bool)
    (payload : list byte) (k : Sketch) : option loop_result :=
  let now := millis (ttn k) in
  if button_low then
    if negb (wasPressed k) then Some (Running (set_press true now k))
    else Some (Running k)
  else if wasPressed k then
    let k := set_press false (minPressMs k) k in
    if wrap32 (minPressMs k + 5000) <? now then
      if PREFS_DISCARD b then
        let k := screen_print (line "Discarding prefs!") k in
        let k := with_ttn ttn_erase_prefs k in
        Some (Restarted (with_ttn (delay 5000) k))
      else Some (Running (screen_print (line "Discarding prefs disabled") k))
    else if wrap32 (minPressMs k + 1000) <? now then
      if autoScaleTX k then
        Some (Running (screen_print (line "TX scaling OFF")
                         (set_autoScaleTX false (SEND_INTERVAL (base b)) k)))
      else
        Some (Running (screen_print (line "TX scaling ON")
                         (set_autoScaleTX true (adjusted_SEND_INTERVAL k) k)))
    else
      let k := set_justSendNow true k in
      s' ← trySendNew (base b) fuel payload (ttn k);
      Some (Running (with_ttn (fun _ => s') k))
  else Some (Running k).

Definition loop (b : Build) (dt : Z) (fuel : nat) (button_low : bool)
    (payload : list byte) (k : Sketch) : option loop_result :=
  if packetSent (ttn k) then
    let k := with_ttn (fun s => set_packet false (packetQueued s) s) k in
    match sleep (base b) dt (ttn k) with
    | Some msec => Some (Asleep (doDeepSleep b msec))
    | None => loop_button b fuel button_low payload k
    end
  else loop_button b fuel button_low payload k.

(** The clock reads [now] when the round begins. *)
Definition at_time (now : Z) (k : Sketch) : Sketch :=
  with_ttn (set_clock now) k.

Definition sketch_of (s : State) : Sketch :=
  {| ttn := s; autoScaleTX := false; adjusted_SEND_INTERVAL := 20000;
     justSendNow := false; wasPressed := false; minPressMs := 0;
     screen := [] |}.

(** ** Between a boot and the first send

    The states the firmware can be in before [ttn_send] has been called
    for the first time since the program started: whatever the sketch
    does with the wrapper other than sending, whatever the radio and the
    clock do meanwhile, every event that the radio raises through
    [onEvent], every message that reaches the sketch's [callback], and
    every round of [loop] that does not end in a send. *)


(** * Properties *)

(** ** Event dispatch *)

(** [deliver] only extends the log of observer calls. *)

Ltac by_fold_induction fs s :=
  revert s; induction fs as [|? fs IH]; intros s; simpl;
  [done | by rewrite IH].

Lemma deliver_invoked m fs s :
  invoked (deliver m fs s) = invoked s ++ map (fun f => (f, m)) fs.
Proof.
  revert s; induction fs as [|f fs IH]; intros s; simpl.
  - by rewrite app_nil_r.
  - rewrite IH. simpl. by rewrite <- app_assoc.
Qed.

Lemma deliver_callbacks m fs s :
  _lmic_callbacks (deliver m fs s) = _lmic_callbacks s.
Proof. by_fold_induction fs s. Qed.

Lemma deliver_count m fs s : count (deliver m fs s) = count s.
Proof. by_fold_induction fs s. Qed.

Lemma deliver_lastWriteMsec m fs s :
  lastWriteMsec (deliver m fs s) = lastWriteMsec s.
Proof. by_fold_induction fs s. Qed.

Lemma deliver_LMIC m fs s : LMIC (deliver m fs s) = LMIC s.
Proof. by_fold_induction fs s. Qed.

Lemma deliver_prefs m fs s : prefs (deliver m fs s) = prefs s.
Proof. by_fold_induction fs s. Qed.

Lemma deliver_clock m fs s : clock (deliver m fs s) = clock s.
Proof. by_fold_induction fs s. Qed.

Lemma deliver_packetSent m fs s : packetSent (deliver m fs s) = packetSent s.
Proof. by_fold_induction fs s. Qed.

Lemma deliver_packetQueued m fs s :
  packetQueued (deliver m fs s) = packetQueued s.
Proof. by_fold_induction fs s. Qed.

Create Rewrite HintDb frame.
#[local] Hint Rewrite deliver_invoked deliver_callbacks deliver_count
  deliver_lastWriteMsec deliver_LMIC deliver_prefs deliver_clock
  deliver_packetSent deliver_packetQueued : frame.

Lemma _ttn_callback_loop_returns m fuel : forall i s,
  registry_fits s ->
  (i <= length (_lmic_callbacks s))%nat ->
  (length (_lmic_callbacks s) - i < fuel)%nat ->
  _ttn_callback_loop fuel (Z.of_nat i) m s
  = Some (deliver m (drop i (_lmic_callbacks s)) s).
Proof.
  unfold registry_fits.
  induction fuel as [|fuel IH]; intros i s Hfit Hi Hfuel; [lia|].
  simpl. destruct (Z.ltb_spec (Z.of_nat i) (Z.of_nat (length (_lmic_callbacks s)))) as [Hlt|Hge].
  - rewrite Nat2Z.id.
    destruct (lookup_lt_is_Some_2 (_lmic_callbacks s) i) as [f Hf]; [lia|].
    rewrite Hf.
    assert (Hw : wrap8 (Z.of_nat i + 1) = Z.of_nat (S i)).
    { unfold wrap8. rewrite Z.mod_small; lia. }
    rewrite Hw, IH; simpl; try lia.
    rewrite (drop_S _ _ _ Hf). done.
  - rewrite drop_ge by lia. done.
Qed.

Lemma _ttn_callback_returns m fuel s :
  registry_fits s ->
  (length (_lmic_callbacks s) < fuel)%nat ->
  _ttn_callback fuel m s = Some (deliver m (_lmic_callbacks s) s).
Proof.
  intros Hfit Hfuel. unfold _ttn_callback.
  change 0 with (Z.of_nat 0).
  rewrite _ttn_callback_loop_returns; [done|done|lia|lia].
Qed.

Lemma _ttn_callback_loop_spins m fuel : forall i s,
  (256 <= length (_lmic_callbacks s))%nat ->
  0 <= i < 256 ->
  _ttn_callback_loop fuel i m s = None.
Proof.
  induction fuel as [|fuel IH]; intros i s Hbig Hi; [done|].
  simpl. destruct (Z.ltb_spec i (Z.of_nat (length (_lmic_callbacks s)))); [|lia].
  destruct (lookup_lt_is_Some_2 (_lmic_callbacks s) (Z.to_nat i)) as [f Hf]; [lia|].
  rewrite Hf. apply IH; [done|]. unfold wrap8. apply Z.mod_pos_bound. lia.
Qed.

Lemma _ttn_callback_spins m fuel s :
  (256 <= length (_lmic_callbacks s))%nat ->
  _ttn_callback fuel m s = None.
Proof. intros. apply _ttn_callback_loop_spins; [done|lia]. Qed.

Lemma register_all_callbacks obs s :
  _lmic_callbacks (register_all obs s) = _lmic_callbacks s ++ obs.
Proof.
  revert s; induction obs as [|f obs IH]; intros s; simpl.
  - by rewrite app_nil_r.
  - rewrite IH. simpl. by rewrite <- app_assoc.
Qed.

Lemma register_all_invoked obs s :
  invoked (register_all obs s) = invoked s.
Proof. by_fold_induction obs s. Qed.

Lemma register_all_count obs s : count (register_all obs s) = count s.
Proof. by_fold_induction obs s. Qed.

Lemma register_all_LMIC obs s : LMIC (register_all obs s) = LMIC s.
Proof. by_fold_induction obs s. Qed.

Lemma register_all_prefs obs s : prefs (register_all obs s) = prefs s.
Proof. by_fold_induction obs s. Qed.

#[local] Hint Rewrite register_all_callbacks register_all_invoked
  register_all_count register_all_LMIC register_all_prefs : frame.

(** [ttn_register] appends the observer to the registry; as long as the
    registry holds at most 255 observers, [_ttn_callback]
    returns after having called every registered observer exactly once,
    in the order of subscription, before it returns (nothing is queued),
    and it changes nothing else. *)
Theorem dispatch_in_subscription_order
    (obs : list fptr) (message : ev_t) (fuel : nat) (s : State) :
  (length (_lmic_callbacks s ++ obs) <= 255)%nat ->
  (length (_lmic_callbacks s ++ obs) < fuel)%nat ->
  (forall f, _lmic_callbacks (ttn_register f s) = _lmic_callbacks s ++ [f]) /\
  _lmic_callbacks (register_all obs s) = _lmic_callbacks s ++ obs /\
  exists s',
    _ttn_callback fuel message (register_all obs s) = Some s' /\
    invoked s' = invoked s
                 ++ map (fun f => (f, message)) (_lmic_callbacks s ++ obs) /\
    _lmic_callbacks s' = _lmic_callbacks s ++ obs /\
    count s' = count s /\ LMIC s' = LMIC s /\ prefs s' = prefs s.
Proof.
  intros Hfit Hfuel. split; [done|]. split; [apply register_all_callbacks|].
  eexists. split.
  - apply _ttn_callback_returns; unfold registry_fits;
      rewrite register_all_callbacks; done.
  - autorewrite with frame. done.
Qed.

Lemma dispatch_in_subscription_order_witness :
  exists s',
    _ttn_callback 4 EV_JOINED
      (register_all [7; 3; 7]%nat (boot 0 (nvs_of true true ∅) 0)) = Some s' /\
    invoked s' = [(7, EV_JOINED); (3, EV_JOINED); (7, EV_JOINED)]%nat.
Proof.
  destruct (dispatch_in_subscription_order [7; 3; 7]%nat EV_JOINED 4
              (boot 0 (nvs_of true true ∅) 0)) as (_ & _ & s' & H1 & H2 & _).
  - simpl. lia.
  - simpl. lia.
  - exists s'. split; [exact H1 | exact H2].
Defined.

(** C8. [ttn_register] accepts any number of observers, and the loop of
    [_ttn_callback] counts them with a [uint8_t] index. With 256
    observers registered the index wraps from 255 to 0 and never reaches
    the size of the registry: the dispatch calls the observers over and
    over and does not return, whatever the fuel. *)
Lemma C8_dispatch_256_observers_never_returns :
  ~ exists fuel s',
      _ttn_callback fuel EV_JOINED
        (register_all (seq 0 256) (boot 0 (nvs_of true true ∅) 0)) = Some s'.
Proof.
  intros (fuel & s' & H).
  rewrite _ttn_callback_spins in H; [discriminate|].
  rewrite register_all_callbacks, length_app, length_seq. simpl. lia.
Qed.

(** ** Stamping the counter *)

Ltac unfold_set_cnt :=
  unfold ttn_set_cnt, millis; simpl;
  repeat (case_match; simpl); try done.

Lemma ttn_set_cnt_count s : count (ttn_set_cnt s) = count s.
Proof. unfold_set_cnt. Qed.

Lemma ttn_set_cnt_callbacks s :
  _lmic_callbacks (ttn_set_cnt s) = _lmic_callbacks s.
Proof. unfold_set_cnt. Qed.

Lemma ttn_set_cnt_invoked s : invoked (ttn_set_cnt s) = invoked s.
Proof. unfold_set_cnt. Qed.

Lemma ttn_set_cnt_clock s : clock (ttn_set_cnt s) = clock s.
Proof. unfold_set_cnt. Qed.

Lemma ttn_set_cnt_packetSent s : packetSent (ttn_set_cnt s) = packetSent s.
Proof. unfold_set_cnt. Qed.

Lemma ttn_set_cnt_packetQueued s :
  packetQueued (ttn_set_cnt s) = packetQueued s.
Proof. unfold_set_cnt. Qed.

Lemma ttn_set_cnt_LMIC s :
  LMIC (ttn_set_cnt s) = LMIC_setSeqnoUp (count s) (LMIC s).
Proof. unfold_set_cnt. Qed.

Lemma ttn_set_cnt_busy s : radio_busy (ttn_set_cnt s) = radio_busy s.
Proof. unfold radio_busy. by rewrite ttn_set_cnt_LMIC. Qed.

Lemma ttn_set_cnt_lastWriteMsec s :
  lastWriteMsec (ttn_set_cnt s)
  = if write_due (clock s) (lastWriteMsec s) then clock s
    else lastWriteMsec s.
Proof. unfold_set_cnt. Qed.

Lemma ttn_set_cnt_prefs s :
  prefs (ttn_set_cnt s)
  = if write_due (clock s) (lastWriteMsec s) && nvs_rw_ok (prefs s)
    then p_putUInt "count" (count s) (prefs s)
    else prefs s.
Proof.
  unfold ttn_set_cnt, millis, p_begin; simpl.
  destruct (write_due _ _); simpl; [|done].
  destruct (nvs_rw_ok _); done.
Qed.

#[local] Hint Rewrite ttn_set_cnt_count ttn_set_cnt_callbacks
  ttn_set_cnt_invoked ttn_set_cnt_clock ttn_set_cnt_packetSent
  ttn_set_cnt_packetQueued ttn_set_cnt_LMIC ttn_set_cnt_lastWriteMsec
  ttn_set_cnt_prefs : frame.

Lemma count_writes_put_count v n :
  count_writes (p_putUInt "count" v n) = count_writes n ++ [v].
Proof.
  unfold count_writes, p_putUInt, p_put. simpl.
  rewrite omap_app. done.
Qed.

(** ** Sending *)

Lemma ttn_send_returns fuel data data_size port confirmed s :
  registry_fits s ->
  (length (_lmic_callbacks s) < fuel)%nat ->
  ttn_send fuel data data_size port confirmed s
  = Some (sent data data_size port confirmed s).
Proof.
  intros Hfit Hfuel. unfold ttn_send, sent.
  rewrite ttn_set_cnt_busy. destruct (radio_busy s).
  - rewrite _ttn_callback_returns;
      rewrite ?ttn_set_cnt_callbacks; unfold registry_fits;
      rewrite ?ttn_set_cnt_callbacks; done.
  - rewrite _ttn_callback_returns; simpl;
      rewrite ?ttn_set_cnt_callbacks; unfold registry_fits; simpl;
      rewrite ?ttn_set_cnt_callbacks; try done.
    rewrite deliver_count. simpl. by rewrite ttn_set_cnt_count.
Qed.

Lemma sent_callbacks data sz port conf s :
  _lmic_callbacks (sent data sz port conf s) = _lmic_callbacks s.
Proof.
  unfold sent. destruct (radio_busy s); simpl;
    rewrite deliver_callbacks; simpl; apply ttn_set_cnt_callbacks.
Qed.

Lemma sent_count data sz port conf s :
  count (sent data sz port conf s)
  = if radio_busy s then count s else wrap32 (count s + 1).
Proof.
  unfold sent. destruct (radio_busy s); simpl; [|done].
  rewrite deliver_count. apply ttn_set_cnt_count.
Qed.

Lemma arrive_busy now opm s :
  radio_busy (arrive now opm s) = negb (Z.land opm OP_TXRXPEND =? 0).
Proof. done. Qed.

Lemma do_send_returns fuel rq s :
  registry_fits s ->
  (length (_lmic_callbacks s) < fuel)%nat ->
  exists s',
    do_send fuel rq s = Some s' /\
    _lmic_callbacks s' = _lmic_callbacks s /\
    count s' = if accepted rq then wrap32 (count s + 1) else count s.
Proof.
  intros Hfit Hfuel. unfold do_send.
  rewrite ttn_send_returns by done.
  eexists; split; [done|]. split.
  - by rewrite sent_callbacks.
  - rewrite sent_count, arrive_busy. unfold accepted.
    destruct (Z.land _ _ =? 0); done.
Qed.

(** ** The frame counter over a sequence of sends *)

Lemma accepted_count_cons rq rqs :
  accepted_count (rq :: rqs)
  = (if accepted rq then 1 else 0) + accepted_count rqs.
Proof.
  unfold accepted_count. rewrite filter_cons.
  destruct (accepted rq); case_decide; try done; simpl length; lia.
Qed.

Lemma accepted_count_nonneg rqs : 0 <= accepted_count rqs.
Proof. unfold accepted_count. lia. Qed.

Lemma accepted_count_app pre post :
  accepted_count (pre ++ post) = accepted_count pre + accepted_count post.
Proof.
  induction pre as [|rq pre IH]; simpl.
  - unfold accepted_count at 2. simpl. lia.
  - rewrite !accepted_count_cons, IH. lia.
Qed.

Lemma wrap32_u32 z : is_u32 (wrap32 z).
Proof.
  unfold is_u32, wrap32, UINT32_MAX.
  pose proof (Z.mod_pos_bound z 4294967296). lia.
Qed.

Lemma wrap32_small z : is_u32 z -> wrap32 z = z.
Proof. unfold is_u32, wrap32, UINT32_MAX. intros. apply Z.mod_small. lia. Qed.

Lemma wrap32_add_l a b : wrap32 (wrap32 a + b) = wrap32 (a + b).
Proof. unfold wrap32. by rewrite Zplus_mod_idemp_l. Qed.

Lemma run_sends_app fuel pre post s :
  run_sends fuel (pre ++ post) s
  = s1 ← run_sends fuel pre s; run_sends fuel post s1.
Proof.
  revert s; induction pre as [|rq pre IH]; intros s; simpl; [done|].
  destruct (do_send fuel rq s); simpl; [apply IH|done].
Qed.

Lemma run_sends_returns fuel rqs : forall s,
  registry_fits s ->
  (length (_lmic_callbacks s) < fuel)%nat ->
  is_u32 (count s) ->
  exists s',
    run_sends fuel rqs s = Some s' /\
    _lmic_callbacks s' = _lmic_callbacks s /\
    count s' = wrap32 (count s + accepted_count rqs).
Proof.
  induction rqs as [|rq rqs IH]; intros s Hfit Hfuel Hc; simpl.
  - exists s. repeat split; try done.
    unfold accepted_count; simpl. rewrite Z.add_0_r. by rewrite wrap32_small.
  - destruct (do_send_returns fuel rq s Hfit Hfuel) as (s1 & -> & Hcb & Hcnt).
    simpl.
    destruct (IH s1) as (s' & Hrun & Hcb' & Hcnt').
    + unfold registry_fits. by rewrite Hcb.
    + by rewrite Hcb.
    + rewrite Hcnt. destruct (accepted rq); [apply wrap32_u32|done].
    + exists s'. split; [done|]. split; [congruence|].
      rewrite Hcnt', Hcnt, accepted_count_cons.
      destruct (accepted rq).
      * rewrite wrap32_add_l. f_equal. lia.
      * f_equal.
Qed.

(** C1 (as amended). With at most 255 observers registered, every
    sequence of send requests runs to its end; each accepted send adds
    exactly one to [count] modulo 2^32 and a rejected (busy) send leaves
    it as it is, so that after any sequence [count] has advanced by the
    number of accepted sends modulo 2^32; as long as the counter does not
    pass [UINT32_MAX] it never decreases along the sequence. *)
Theorem C1_count_follows_accepted_sends
    (fuel : nat) (pre post : list SendReq) (s : State) :
  registry_fits s ->
  (length (_lmic_callbacks s) < fuel)%nat ->
  is_u32 (count s) ->
  exists s1 s2,
    run_sends fuel pre s = Some s1 /\
    run_sends fuel post s1 = Some s2 /\
    run_sends fuel (pre ++ post) s = Some s2 /\
    count s1 = wrap32 (count s + accepted_count pre) /\
    count s2 = wrap32 (count s1 + accepted_count post) /\
    (forall rq, exists s3,
        do_send fuel rq s2 = Some s3 /\
        count s3 = if accepted rq then wrap32 (count s2 + 1) else count s2) /\
    (count s + accepted_count (pre ++ post) <= UINT32_MAX ->
     count s <= count s1 /\ count s1 <= count s2 /\
     count s2 = count s1 + accepted_count post).
Proof.
  intros Hfit Hfuel Hc.
  destruct (run_sends_returns fuel pre s Hfit Hfuel Hc) as (s1 & H1 & Hcb1 & Hc1).
  assert (Hfit1 : registry_fits s1) by (unfold registry_fits; by rewrite Hcb1).
  assert (Hfuel1 : (length (_lmic_callbacks s1) < fuel)%nat) by (by rewrite Hcb1).
  assert (Hu1 : is_u32 (count s1)) by (rewrite Hc1; apply wrap32_u32).
  destruct (run_sends_returns fuel post s1 Hfit1 Hfuel1 Hu1) as (s2 & H2 & Hcb2 & Hc2).
  exists s1, s2.
  split; [done|]. split; [done|].
  split; [by rewrite run_sends_app, H1|].
  split; [done|]. split; [done|]. split.
  - intros rq.
    destruct (do_send_returns fuel rq s2) as (s3 & H3 & _ & Hc3).
    + unfold registry_fits. by rewrite Hcb2.
    + by rewrite Hcb2.
    + by exists s3.
  - intros Hmax. rewrite accepted_count_app in Hmax.
    pose proof (accepted_count_nonneg pre) as Hpre.
    pose proof (accepted_count_nonneg post) as Hpost.
    assert (E1 : count s1 = count s + accepted_count pre).
    { rewrite Hc1. apply wrap32_small. unfold is_u32 in *. lia. }
    assert (E2 : count s2 = count s1 + accepted_count post).
    { rewrite Hc2. apply wrap32_small. unfold is_u32 in *. lia. }
    lia.
Qed.

Lemma C1_count_follows_accepted_sends_witness :
  exists s1 s2,
    run_sends 2 [req_idle 1000; req_busy 2000] (booted 41 store_empty 0)
    = Some s1 /\
    run_sends 2 [req_idle 3000] s1 = Some s2 /\
    count s1 = 42 /\ count s2 = 43.
Proof.
  destruct (C1_count_follows_accepted_sends 2
              [req_idle 1000; req_busy 2000] [req_idle 3000]
              (booted 41 store_empty 0))
    as (s1 & s2 & H1 & H2 & _ & Hc1 & Hc2 & _).
  - unfold registry_fits. simpl. lia.
  - simpl. lia.
  - unfold is_u32, UINT32_MAX. simpl. lia.
  - exists s1, s2. split; [exact H1|]. split; [exact H2|].
    split; [exact Hc1|]. rewrite Hc2, Hc1. reflexivity.
Defined.

(** At [UINT32_MAX] an accepted send takes the counter back to 0. *)
Lemma C1_count_wraps_to_zero :
  accepted (req_idle 1000) = true /\
  count (booted UINT32_MAX store_empty 0) = 4294967295 /\
  count <$> do_send 2 (req_idle 1000) (booted UINT32_MAX store_empty 0)
  = Some 0 /\
  0 < count (booted UINT32_MAX store_empty 0).
Proof.
  split; [reflexivity|]. split; [reflexivity|].
  split; [vm_compute; reflexivity|reflexivity].
Qed.

(** ** A send while the radio is busy *)

Lemma submitted_setSeqnoUp n l : submitted (LMIC_setSeqnoUp n l) = submitted l.
Proof.
  unfold submitted, LMIC_setSeqnoUp, lmic_log. simpl.
  rewrite omap_app. simpl. by rewrite app_nil_r.
Qed.

(** C3 (as amended). If a transmit/receive operation is outstanding when
    a send is requested (and at most 255 observers are registered),
    [ttn_send] calls every observer once with EV_PENDING, does not
    increment the counter and hands no uplink to the radio: the pending
    uplink, the operating mode and the list of submitted uplinks are what
    they were. What the call does change is what [ttn_set_cnt] does before
    the busy test: the sequence number of the radio is set to [count], and
    the counter is written to the store under the usual rate limit. *)
Theorem C3_busy_send_is_discarded
    (fuel : nat) (data : list byte) (data_size port : Z) (confirmed : bool)
    (s : State) :
  registry_fits s ->
  (length (_lmic_callbacks s) < fuel)%nat ->
  radio_busy s = true ->
  exists s',
    ttn_send fuel data data_size port confirmed s = Some s' /\
    s' = deliver EV_PENDING (_lmic_callbacks s) (ttn_set_cnt s) /\
    invoked s' = invoked s
                 ++ map (fun f => (f, EV_PENDING)) (_lmic_callbacks s) /\
    count s' = count s /\
    pendTx (LMIC s') = pendTx (LMIC s) /\
    submitted (LMIC s') = submitted (LMIC s) /\
    opmode (LMIC s') = opmode (LMIC s) /\
    session (LMIC s') = session (LMIC s) /\
    _lmic_callbacks s' = _lmic_callbacks s /\
    packetSent s' = packetSent s /\ packetQueued s' = packetQueued s /\
    seqnoUp (LMIC s') = count s /\
    lastWriteMsec s'
    = (if write_due (clock s) (lastWriteMsec s) then clock s
       else lastWriteMsec s) /\
    prefs s'
    = (if write_due (clock s) (lastWriteMsec s) && nvs_rw_ok (prefs s)
       then p_putUInt "count" (count s) (prefs s) else prefs s).
Proof.
  intros Hfit Hfuel Hbusy.
  rewrite ttn_send_returns by done. unfold sent. rewrite Hbusy.
  eexists. split; [done|]. split; [done|].
  autorewrite with frame. rewrite submitted_setSeqnoUp. done.
Qed.

Lemma C3_busy_send_is_discarded_witness :
  exists s',
    ttn_send 2 [x03; x88] 2 10 false
             (arrive 1000 OP_TXRXPEND (booted 41 store_empty 0)) = Some s' /\
    invoked s' = [(1%nat, EV_PENDING)] /\
    count s' = 41 /\
    pendTx (LMIC s') = None.
Proof.
  destruct (C3_busy_send_is_discarded 2 [x03; x88] 2 10 false
              (arrive 1000 OP_TXRXPEND (booted 41 store_empty 0)))
    as (s' & H1 & _ & H2 & H3 & H4 & _).
  - unfold registry_fits. simpl. lia.
  - simpl. lia.
  - reflexivity.
  - exists s'. split; [exact H1|]. split; [exact H2|]. split; [exact H3|exact H4].
Defined.

(** A busy send is not without effect on what the next send finds: the
    counter is stamped on the radio and written to the store, and the
    time of the last write moves. *)
Lemma C3_busy_send_changes_send_state :
  radio_busy (arrive 1000 OP_TXRXPEND (booted 41 store_empty 0)) = true /\
  send_state (arrive 1000 OP_TXRXPEND (booted 41 store_empty 0))
  = (41, 0, None, 4294967295, None) /\
  send_state <$> ttn_send 2 [x03; x88] 2 10 false
                   (arrive 1000 OP_TXRXPEND (booted 41 store_empty 0))
  = Some (41, 41, None, 1000, Some (PUInt 41)) /\
  send_state <$> ttn_send 2 [x03; x88] 2 10 false
                   (arrive 1000 OP_TXRXPEND (booted 41 store_empty 0))
  <> Some (send_state (arrive 1000 OP_TXRXPEND (booted 41 store_empty 0))).
Proof.
  split; [reflexivity|]. split; [vm_compute; reflexivity|].
  split; [vm_compute; reflexivity|]. vm_compute. discriminate.
Qed.

(** ** Durable writes of the counter *)

Lemma write_due_spec now last :
  is_u32 now -> is_u32 last ->
  write_due now last = true <-> now < last \/ FIVE_MINUTES < now - last.
Proof.
  unfold write_due, is_u32, UINT32_MAX, FIVE_MINUTES, wrap32. intros Hn Hl.
  rewrite orb_true_iff, !Z.ltb_lt.
  destruct (Z.lt_ge_cases now last) as [Hlt|Hge].
  - split; intros _; left; done.
  - rewrite Z.mod_small by lia. done.
Qed.

Lemma _ttn_callback_loop_keeps m fuel : forall i s s',
  _ttn_callback_loop fuel i m s = Some s' ->
  prefs s' = prefs s /\ lastWriteMsec s' = lastWriteMsec s /\
  count s' = count s /\ LMIC s' = LMIC s.
Proof.
  induction fuel as [|fuel IH]; intros i s s' H; [done|].
  simpl in H. case_match.
  - case_match; [|done]. apply IH in H. simpl in H. done.
  - by inversion H.
Qed.

Lemma ttn_send_writes fuel data sz port conf s s' :
  ttn_send fuel data sz port conf s = Some s' ->
  prefs s' = prefs (ttn_set_cnt s) /\
  lastWriteMsec s' = lastWriteMsec (ttn_set_cnt s).
Proof.
  unfold ttn_send, _ttn_callback. intros H. case_match.
  - apply _ttn_callback_loop_keeps in H. tauto.
  - destruct (_ttn_callback_loop _ _ _ _) as [s3|] eqn:E; [|done].
    simpl in H. inversion H; subst s'; clear H. simpl.
    apply _ttn_callback_loop_keeps in E. simpl in E. tauto.
Qed.

Lemma do_send_writes fuel rq s :
  registry_fits s ->
  (length (_lmic_callbacks s) < fuel)%nat ->
  exists s',
    do_send fuel rq s = Some s' /\
    _lmic_callbacks s' = _lmic_callbacks s /\
    lastWriteMsec s'
    = (if write_due (rq_now rq) (lastWriteMsec s) then rq_now rq
       else lastWriteMsec s) /\
    count_writes (prefs s')
    = count_writes (prefs s)
      ++ (if write_due (rq_now rq) (lastWriteMsec s) && nvs_rw_ok (prefs s)
          then [count s] else []).
Proof.
  intros Hfit Hfuel.
  destruct (do_send_returns fuel rq s Hfit Hfuel) as (s' & H & Hcb & _).
  exists s'. split; [done|]. split; [done|].
  unfold do_send in H. apply ttn_send_writes in H. destruct H as [-> ->].
  rewrite ttn_set_cnt_lastWriteMsec, ttn_set_cnt_prefs. simpl.
  split; [done|].
  destruct (write_due _ _ && _).
  - by rewrite count_writes_put_count.
  - by rewrite app_nil_r.
Qed.

(** Once a write has happened at [last], requests that come no more than
    five minutes later write nothing. *)
Lemma run_sends_quiet fuel rqs : forall lo hi s,
  registry_fits s ->
  (length (_lmic_callbacks s) < fuel)%nat ->
  rapid lo hi rqs ->
  is_u32 (lastWriteMsec s) ->
  lastWriteMsec s <= lo -> hi <= lastWriteMsec s + FIVE_MINUTES ->
  hi <= UINT32_MAX ->
  exists s',
    run_sends fuel rqs s = Some s' /\
    count_writes (prefs s') = count_writes (prefs s).
Proof.
  induction rqs as [|rq rqs IH]; intros lo hi s Hfit Hfuel Hr Hu Hlo Hhi Hmax; simpl.
  - by exists s.
  - destruct Hr as [Hnow Hr].
    destruct (do_send_writes fuel rq s Hfit Hfuel) as (s1 & -> & Hcb & Hl & Hw).
    simpl.
    assert (Hnd : write_due (rq_now rq) (lastWriteMsec s) = false).
    { apply not_true_is_false. rewrite write_due_spec; [lia| |done].
      unfold is_u32 in *. lia. }
    rewrite Hnd in Hl, Hw. simpl in Hw. rewrite app_nil_r in Hw.
    assert (Hfit1 : registry_fits s1) by (unfold registry_fits; by rewrite Hcb).
    assert (Hfuel1 : (length (_lmic_callbacks s1) < fuel)%nat) by (by rewrite Hcb).
    destruct (IH (rq_now rq) hi s1) as (s' & Hrun & Hw');
      [done|done|done|by rewrite Hl|rewrite Hl; lia|rewrite Hl; lia|done|].
    exists s'. split; [done|congruence].
Qed.

Lemma run_sends_one_write fuel rqs : forall lo s,
  registry_fits s ->
  (length (_lmic_callbacks s) < fuel)%nat ->
  rapid lo (lo + FIVE_MINUTES) rqs ->
  0 <= lo -> lo + FIVE_MINUTES <= UINT32_MAX ->
  exists s',
    run_sends fuel rqs s = Some s' /\
    (length (count_writes (prefs s'))
     <= length (count_writes (prefs s)) + 1)%nat.
Proof.
  induction rqs as [|rq rqs IH]; intros lo s Hfit Hfuel Hr Hlo Hhi; simpl.
  - exists s. split; [done|lia].
  - destruct Hr as [Hnow Hr].
    destruct (do_send_writes fuel rq s Hfit Hfuel) as (s1 & -> & Hcb & Hl & Hw).
    simpl.
    assert (Hfit1 : registry_fits s1) by (unfold registry_fits; by rewrite Hcb).
    assert (Hfuel1 : (length (_lmic_callbacks s1) < fuel)%nat) by (by rewrite Hcb).
    destruct (write_due (rq_now rq) (lastWriteMsec s)) eqn:Hd.
    + destruct (run_sends_quiet fuel rqs (rq_now rq) (lo + FIVE_MINUTES) s1)
        as (s' & Hrun & Hw');
        [done|done|done|rewrite Hl; unfold is_u32; lia|rewrite Hl; lia
        |rewrite Hl; lia|done|].
      exists s'. split; [done|]. rewrite Hw', Hw, length_app.
      destruct (_ && _); simpl; lia.
    + simpl in Hw. rewrite app_nil_r in Hw.
      destruct (IH lo s1) as (s' & Hrun & Hw'); [done|done| |done|done|].
      { clear -Hr Hnow. destruct rqs as [|rq' rqs]; [done|].
        simpl in *. destruct Hr as [Hr1 Hr2]. split; [lia|done]. }
      exists s'. split; [done|]. rewrite <- Hw. done.
Qed.

Lemma ttn_save_counter_lastWriteMsec s :
  lastWriteMsec (ttn_save_counter s) = lastWriteMsec s.
Proof. unfold ttn_save_counter. by case_match. Qed.

(** C2 (as amended). During a send the counter is written to the store
    only when [now < lastWriteMsec] (the clock rolled over) or
    [now - lastWriteMsec] exceeds five minutes, and then only if the store
    opens; hence requests that all fall into one five-minute window cause
    at most one write. [ttn_save_counter] looks neither at the clock nor
    at [lastWriteMsec]: whenever the store opens for writing it writes the
    counter, exactly once, and leaves the rate limit as it was; when the
    store does not open it writes nothing. *)
Theorem C2_counter_writes_are_rate_limited
    (fuel : nat) (rqs : list SendReq) (lo : Z) (s : State) :
  registry_fits s ->
  (length (_lmic_callbacks s) < fuel)%nat ->
  is_u32 (clock s) -> is_u32 (lastWriteMsec s) ->
  0 <= lo -> lo + FIVE_MINUTES <= UINT32_MAX ->
  rapid lo (lo + FIVE_MINUTES) rqs ->
  (count_writes (prefs (ttn_set_cnt s)) <> count_writes (prefs s) ->
   clock s < lastWriteMsec s \/ FIVE_MINUTES < clock s - lastWriteMsec s) /\
  (forall data sz port conf s',
     ttn_send fuel data sz port conf s = Some s' ->
     prefs s' = prefs (ttn_set_cnt s)) /\
  (exists s',
     run_sends fuel rqs s = Some s' /\
     (length (count_writes (prefs s'))
      <= length (count_writes (prefs s)) + 1)%nat) /\
  (nvs_rw_ok (prefs s) = true ->
   count_writes (prefs (ttn_save_counter s))
   = count_writes (prefs s) ++ [count s] /\
   nvs_data (prefs (ttn_save_counter s)) !! "count" = Some (PUInt (count s))) /\
  (nvs_rw_ok (prefs s) = false -> ttn_save_counter s = s) /\
  lastWriteMsec (ttn_save_counter s) = lastWriteMsec s.
Proof.
  intros Hfit Hfuel Hclk Hlast Hlo Hhi Hrapid.
  split; [|split; [|split; [|split; [|split]]]].
  - intros Hw. apply (proj1 (write_due_spec _ _ Hclk Hlast)).
    rewrite ttn_set_cnt_prefs in Hw.
    destruct (write_due _ _); [done|]. by simpl in Hw.
  - intros data sz port conf s' H. apply ttn_send_writes in H. tauto.
  - by apply (run_sends_one_write fuel rqs lo).
  - intros Hok. unfold ttn_save_counter, p_begin. rewrite Hok. simpl.
    split; [apply count_writes_put_count|]. apply lookup_insert_eq.
  - intros Hno. unfold ttn_save_counter, p_begin. by rewrite Hno.
  - apply ttn_save_counter_lastWriteMsec.
Qed.

Lemma C2_counter_writes_are_rate_limited_witness :
  (exists s',
     run_sends 2 [req_idle 1000; req_idle 2000; req_busy 3000; req_idle 301000]
               (booted 41 store_empty 0) = Some s' /\
     (length (count_writes (prefs s')) <= 0 + 1)%nat) /\
  count_writes (prefs (ttn_save_counter (booted 41 store_empty 0))) = [41].
Proof.
  destruct (C2_counter_writes_are_rate_limited 2
              [req_idle 1000; req_idle 2000; req_busy 3000; req_idle 301000]
              1000 (booted 41 store_empty 0))
    as (_ & _ & H3 & H4 & _).
  - unfold registry_fits. simpl. lia.
  - simpl. lia.
  - unfold is_u32. simpl. unfold UINT32_MAX. lia.
  - unfold is_u32. simpl. unfold UINT32_MAX. lia.
  - lia.
  - unfold FIVE_MINUTES, UINT32_MAX. lia.
  - unfold FIVE_MINUTES. simpl. lia.
  - split; [exact H3|]. apply H4. reflexivity.
Defined.

(** When the store cannot be opened for writing, [ttn_save_counter]
    writes nothing. *)
Lemma C2_save_counter_without_store_writes_nothing :
  nvs_rw_ok (prefs (booted 41 (nvs_of true false ∅) 0)) = false /\
  ttn_save_counter (booted 41 (nvs_of true false ∅) 0)
  = booted 41 (nvs_of true false ∅) 0 /\
  count_writes (prefs (ttn_save_counter (booted 41 (nvs_of true false ∅) 0)))
  = [].
Proof. repeat split. Qed.

(** ** The time of the last write outside a send *)


(** ** Activation *)

Lemma p_getBytes_16 n key :
  (p_getBytes true key 16 n).1 = 16 <-> key_stored n key.
Proof.
  unfold p_getBytes, key_stored.
  destruct (nvs_data n !! key) as [[v|b]|] eqn:E; simpl.
  - split; [done|]. intros (b & Hb & _). done.
  - destruct (Z.ltb_spec 16 (Z.of_nat (length b))); simpl.
    + split; [done|]. intros (b' & Hb & Hlen). inversion Hb; subst. lia.
    + split.
      * intros Hlen. exists b. split; [done|lia].
      * intros (b' & Hb & Hlen). inversion Hb; subst. lia.
  - split; [done|]. intros (b & Hb & _). done.
Qed.

Lemma keysgood_false n :
  nvs_ro_ok n = false \/ ~ key_stored n "nwkKey" \/ ~ key_stored n "artKey" ->
  ((p_getBytes (nvs_ro_ok n) "nwkKey" 16 n).1 =? 16)
  && ((p_getBytes (nvs_ro_ok n) "artKey" 16 n).1 =? 16) = false.
Proof.
  intros H. apply andb_false_iff.
  destruct (nvs_ro_ok n) eqn:Hro.
  - destruct H as [H|[H|H]]; [done| |].
    + left. apply Z.eqb_neq. by rewrite p_getBytes_16.
    + right. apply Z.eqb_neq. by rewrite p_getBytes_16.
  - left. done.
Qed.

(** C4 (as amended). Under OTAA, for every stored record in which one of
    the two session keys is missing, is not stored as bytes or is not
    exactly 16 bytes long, and also when the store cannot be opened,
    [ttn_join] returns with no session installed and with a join
    scheduled on the radio; no observer is called and the store is not
    touched. The check covers the two keys only. *)
Theorem C4_bad_keys_fall_back_to_join
    (cfg : Config) (fuel : nat) (s : State) :
  ACTIVATION cfg = USE_OTAA ->
  nvs_ro_ok (prefs s) = false \/
  ~ key_stored (prefs s) "nwkKey" \/ ~ key_stored (prefs s) "artKey" ->
  exists s',
    ttn_join cfg fuel s = Some s' /\
    session (LMIC s') = None /\
    Z.land (opmode (LMIC s')) OP_JOINING = OP_JOINING /\
    calls (LMIC s')
    = calls (LMIC s)
      ++ [Call_reset; Call_setLinkCheckMode 0;
          Call_setDrTxpow (LORAWAN_SF cfg) 14;
          Call_startJoining; Call_startJoining] /\
    invoked s' = invoked s /\
    prefs s' = prefs s /\
    count s' = count s.
Proof.
  intros Hmode Hbad. unfold ttn_join. rewrite Hmode. simpl.
  unfold p_begin. rewrite (keysgood_false _ Hbad). simpl.
  eexists. split; [done|]. simpl.
  repeat split; try done.
  rewrite <- !app_assoc. done.
Qed.

Lemma C4_bad_keys_fall_back_to_join_witness :
  exists s',
    ttn_join cfg_otaa 2 (booted 0 store_short_key 0) = Some s' /\
    session (LMIC s') = None /\
    invoked s' = [].
Proof.
  destruct (C4_bad_keys_fall_back_to_join cfg_otaa 2
              (booted 0 store_short_key 0))
    as (s' & H1 & H2 & _ & _ & H3 & _).
  - reflexivity.
  - right. right. intros (b & Hb & Hlen).
    vm_compute in Hb. inversion Hb; subst b. simpl in Hlen. lia.
  - exists s'. split; [exact H1|]. split; [exact H2|exact H3].
Defined.

(** A record without network id and device address but with both keys
    is restored all the same, with [UINT32_MAX] in their place. *)
Lemma C4_missing_ids_still_restore :
  nvs_data store_keys_only !! "netId" = None /\
  nvs_data store_keys_only !! "devAddr" = None /\
  exists s',
    ttn_join cfg_otaa 2 (booted 0 store_keys_only 0) = Some s' /\
    session (LMIC s')
    = Some {| netid := 4294967295; devaddr := 4294967295;
              nwkKey := replicate 16 xa1; artKey := replicate 16 xb2 |} /\
    invoked s' = [(1%nat, EV_JOINED)].
Proof.
  split; [vm_compute; reflexivity|]. split; [vm_compute; reflexivity|].
  eexists. split; [vm_compute; reflexivity|]. split; reflexivity.
Qed.

Lemma ttn_join_abp_returns cfg fuel s :
  ACTIVATION cfg = USE_ABP ->
  registry_fits s ->
  (length (_lmic_callbacks s) < fuel)%nat ->
  exists s',
    ttn_join cfg fuel s = Some s' /\
    session (LMIC s') = Some (abp_session cfg) /\
    dn2Dr (LMIC s') = DR_SF9 /\
    invoked s'
    = invoked s ++ map (fun f => (f, EV_JOINED)) (_lmic_callbacks s) /\
    _lmic_callbacks s' = _lmic_callbacks s /\
    join_requests (LMIC s') = join_requests (LMIC s) /\
    prefs s' = prefs s /\ count s' = count s.
Proof.
  intros Hmode Hfit Hfuel. unfold ttn_join. rewrite Hmode.
  rewrite _ttn_callback_returns; [|done|done].
  eexists. split; [done|].
  rewrite deliver_LMIC, deliver_invoked, deliver_callbacks, deliver_prefs,
    deliver_count. simpl.
  repeat split; try done.
  unfold join_requests, set_dn2Dr, LMIC_setSession, LMIC_setDrTxpow,
    LMIC_setLinkCheckMode, LMIC_reset, lmic_log. cbn [calls].
  rewrite !filter_app, !length_app. simpl. lia.
Qed.

Lemma ttn_join_abp_spins cfg fuel s :
  ACTIVATION cfg = USE_ABP ->
  (256 <= length (_lmic_callbacks s))%nat ->
  ttn_join cfg fuel s = None.
Proof.
  intros Hmode Hbig. unfold ttn_join. rewrite Hmode.
  by apply _ttn_callback_spins.
Qed.

(** With at most 255 observers registered, two ABP activations in a row
    both return; after each of them the session is
    the configured one (network id 1, DEVADDR, NWKSKEY, APPSKEY), so the
    two sessions are identical, no join handshake is requested, and each
    call makes every observer receive EV_JOINED exactly once more. *)
Theorem abp_activation_is_idempotent
    (cfg : Config) (fuel : nat) (s : State) :
  ACTIVATION cfg = USE_ABP ->
  registry_fits s ->
  (length (_lmic_callbacks s) < fuel)%nat ->
  exists s1 s2,
    ttn_join cfg fuel s = Some s1 /\
    ttn_join cfg fuel s1 = Some s2 /\
    session (LMIC s1) = Some (abp_session cfg) /\
    session (LMIC s2) = session (LMIC s1) /\
    dn2Dr (LMIC s2) = dn2Dr (LMIC s1) /\
    invoked s1
    = invoked s ++ map (fun f => (f, EV_JOINED)) (_lmic_callbacks s) /\
    invoked s2
    = invoked s1 ++ map (fun f => (f, EV_JOINED)) (_lmic_callbacks s) /\
    join_requests (LMIC s2) = join_requests (LMIC s) /\
    prefs s2 = prefs s /\ count s2 = count s.
Proof.
  intros Hmode Hfit Hfuel.
  destruct (ttn_join_abp_returns cfg fuel s Hmode Hfit Hfuel)
    as (s1 & H1 & Hs1 & Hd1 & Hi1 & Hcb1 & Hj1 & Hp1 & Hc1).
  destruct (ttn_join_abp_returns cfg fuel s1 Hmode)
    as (s2 & H2 & Hs2 & Hd2 & Hi2 & Hcb2 & Hj2 & Hp2 & Hc2).
  { unfold registry_fits. by rewrite Hcb1. }
  { by rewrite Hcb1. }
  exists s1, s2. rewrite Hcb1 in Hi2.
  repeat split; try done; congruence.
Qed.

Lemma abp_activation_is_idempotent_witness :
  exists s1 s2,
    ttn_join cfg_abp 2 (booted 0 store_empty 0) = Some s1 /\
    ttn_join cfg_abp 2 s1 = Some s2 /\
    session (LMIC s1) = Some (abp_session cfg_abp) /\
    session (LMIC s2) = session (LMIC s1) /\
    invoked s1 = [(1%nat, EV_JOINED)] /\
    invoked s2 = invoked s1 ++ [(1%nat, EV_JOINED)].
Proof.
  destruct (abp_activation_is_idempotent cfg_abp 2
              (booted 0 store_empty 0))
    as (s1 & s2 & H1 & H2 & H3 & H4 & _ & H5 & H6 & _).
  - reflexivity.
  - unfold registry_fits. simpl. lia.
  - simpl. lia.
  - exists s1, s2. repeat split; assumption.
Defined.

(** C7. An ABP activation ends by dispatching EV_JOINED through
    [_ttn_callback], whose [uint8_t] index cannot count 256 observers:
    with 256 observers registered [ttn_join] does not return, whatever
    the fuel, so there is no second activation to compare with the
    first. *)
Lemma C7_abp_activation_256_observers_never_returns :
  ~ exists fuel s',
      ttn_join cfg_abp fuel
        (register_all (seq 0 256) (boot 0 store_empty 0)) = Some s'.
Proof.
  intros (fuel & s' & H).
  rewrite ttn_join_abp_spins in H; [discriminate|reflexivity|].
  rewrite register_all_callbacks, length_app, length_seq. simpl. lia.
Qed.

(** ** Confirmed uplinks *)

Lemma do_try_idle cfg fuel wk s :
  0 < LORAWAN_CONFIRMED_EVERY cfg ->
  registry_fits s ->
  (length (_lmic_callbacks s) < fuel)%nat ->
  radio_idle_at wk ->
  exists s',
    do_try cfg fuel wk s = Some s' /\
    _lmic_callbacks s' = _lmic_callbacks s /\
    count s' = wrap32 (count s + 1) /\
    confirmed_flags s'
    = confirmed_flags s
      ++ [confirm_flag (LORAWAN_CONFIRMED_EVERY cfg) (count s)].
Proof.
  intros HN Hfit Hfuel Hidle. unfold do_try, trySendNew.
  rewrite ttn_send_returns; [|done|done].
  eexists. split; [done|].
  rewrite sent_callbacks, sent_count. unfold sent.
  assert (Hb : radio_busy
                 (set_packet false true
                    (set_packet false
                       (packetQueued (arrive (wk_now wk) (wk_opmode wk) s))
                       (arrive (wk_now wk) (wk_opmode wk) s))) = false).
  { unfold radio_busy. simpl. unfold radio_idle_at in Hidle.
    by rewrite Hidle. }
  simpl packetSent. rewrite Hb.
  split; [done|]. split; [done|].
  unfold confirmed_flags. cbn [LMIC set_count].
  rewrite deliver_LMIC. cbn [LMIC with_LMIC].
  rewrite ttn_set_cnt_LMIC.
  unfold submitted, LMIC_setTxData2, LMIC_setSeqnoUp, lmic_log. cbn [calls].
  rewrite !omap_app, map_app. simpl. rewrite app_nil_r.
  unfold ttn_get_count, confirm_flag. simpl.
  destruct (Z.ltb_spec 0 (LORAWAN_CONFIRMED_EVERY cfg)); [|lia].
  by destruct (_ =? 0).
Qed.

(** C5 (as amended). When LORAWAN_CONFIRMED_EVERY is a positive N (and at
    most 255 observers are registered), [trySendNew] asks for a confirmed
    uplink exactly when the counter as it stands before the send, which is
    the frame counter stamped on that uplink, is a multiple of N, and for
    an unconfirmed one otherwise: of consecutive accepted sends that start
    with the counter at [c], the one numbered [k + 1] is confirmed exactly
    when [c + k] is a multiple of N. *)
Theorem C5_confirmed_when_count_before_send_divides
    (cfg : Config) (fuel : nat) (wks : list Wake) (s : State) :
  0 < LORAWAN_CONFIRMED_EVERY cfg ->
  registry_fits s ->
  (length (_lmic_callbacks s) < fuel)%nat ->
  0 <= count s ->
  count s + Z.of_nat (length wks) <= UINT32_MAX ->
  Forall radio_idle_at wks ->
  exists s',
    run_tries cfg fuel wks s = Some s' /\
    count s' = count s + Z.of_nat (length wks) /\
    confirmed_flags s'
    = confirmed_flags s
      ++ map (fun k => confirm_flag (LORAWAN_CONFIRMED_EVERY cfg)
                                    (count s + Z.of_nat k))
             (seq 0 (length wks)).
Proof.
  revert s.
  induction wks as [|wk wks IH]; intros s HN Hfit Hfuel Hc Hmax Hidle.
  - exists s. simpl. rewrite Z.add_0_r, app_nil_r. done.
  - inversion Hidle as [|? ? Hwk Hrest]; subst.
    destruct (do_try_idle cfg fuel wk s HN Hfit Hfuel Hwk)
      as (s1 & H1 & Hcb & Hc1 & Hf1).
    assert (Hc1' : count s1 = count s + 1).
    { rewrite Hc1. apply wrap32_small. unfold is_u32.
      simpl length in Hmax. lia. }
    destruct (IH s1) as (s' & Hrun & Hc' & Hf'); try done.
    + unfold registry_fits. by rewrite Hcb.
    + by rewrite Hcb.
    + lia.
    + simpl length in Hmax. lia.
    + exists s'. simpl run_tries. rewrite H1. simpl. split; [done|].
      split; [simpl length; lia|].
      rewrite Hf', Hf1, <- app_assoc. f_equal. simpl.
      rewrite Z.add_0_r. f_equal.
      rewrite <- seq_shift, map_map. apply map_ext. intros k.
      f_equal. lia.
Qed.

(** With N = 10 and fifteen accepted sends that start at counter 0, the
    sends numbered 1 and 11 are the confirmed ones. *)
Lemma C5_confirmed_when_count_before_send_divides_witness :
  exists s',
    run_tries cfg_otaa 2 fifteen_wakes (booted 0 store_empty 0) = Some s' /\
    count s' = 15 /\
    confirmed_flags s' = [1; 0; 0; 0; 0; 0; 0; 0; 0; 0; 1; 0; 0; 0; 0].
Proof.
  destruct (C5_confirmed_when_count_before_send_divides cfg_otaa 2
              fifteen_wakes (booted 0 store_empty 0))
    as (s' & H1 & H2 & H3).
  - reflexivity.
  - unfold registry_fits. simpl. lia.
  - simpl. lia.
  - simpl. lia.
  - simpl. unfold UINT32_MAX. lia.
  - repeat constructor.
  - exists s'. split; [exact H1|]. split; [exact H2|exact H3].
Defined.

(** The tenth of fifteen sends is not confirmed, the first and the
    eleventh are; the rule of the specification would confirm the tenth
    only. *)
Lemma C5_tenth_send_is_not_confirmed :
  confirmed_flags
    <$> run_tries cfg_otaa 2 fifteen_wakes (booted 0 store_empty 0)
  = Some [1; 0; 0; 0; 0; 0; 0; 0; 0; 0; 1; 0; 0; 0; 0] /\
  map (spec_confirm_flag 10) (seqZ 0 15)
  = [0; 0; 0; 0; 0; 0; 0; 0; 0; 1; 0; 0; 0; 0; 0] /\
  confirmed_flags
    <$> run_tries cfg_otaa 2 fifteen_wakes (booted 0 store_empty 0)
  <> Some (map (spec_confirm_flag 10) (seqZ 0 15)).
Proof.
  split; [vm_compute; reflexivity|]. split; [vm_compute; reflexivity|].
  vm_compute. discriminate.
Qed.

(** ** Sleeping *)




(** ** Reading the downlink *)

Lemma downlink_length l :
  downlink_in_frame l -> length (downlink l) = Z.to_nat (dataLen l).
Proof.
  unfold downlink_in_frame, downlink, is_u8. intros (Hb & Hl & Hin).
  rewrite length_take, length_drop. lia.
Qed.

Lemma downlink_lookup l (i : nat) :
  (i < Z.to_nat (dataLen l))%nat ->
  downlink l !! i = frame l !! (Z.to_nat (dataBeg l) + i)%nat.
Proof.
  intros Hi. unfold downlink. rewrite lookup_take_lt by done.
  by rewrite lookup_drop.
Qed.

(** What the copy loop leaves behind, by the capacity of the buffer. *)
Lemma ttn_response_loop_returns l buffer fuel : forall i : nat,
  downlink_in_frame l ->
  (i <= Z.to_nat (dataLen l))%nat ->
  (i <= length buffer)%nat ->
  (Z.to_nat (dataLen l) - i < fuel)%nat ->
  ttn_response_loop fuel (Z.of_nat i) l (take i (downlink l) ++ drop i buffer)
  = Some (if (Z.to_nat (dataLen l) <=? length buffer)%nat
          then inr (downlink l ++ drop (Z.to_nat (dataLen l)) buffer)
          else inl (WriteOutOfBounds (Z.of_nat (length buffer))
                                     (take (length buffer) (downlink l)))).
Proof.
  induction fuel as [|fuel IH]; intros i Hwf Hi Hcap Hfuel; [lia|].
  pose proof (downlink_length l Hwf) as Hlen.
  destruct Hwf as (Hb & Hl & Hin). unfold is_u8 in *.
  simpl. destruct (Z.ltb_spec (Z.of_nat i) (dataLen l)) as [Hlt|Hge].
  - assert (Hi' : (i < Z.to_nat (dataLen l))%nat) by lia.
    replace (Z.to_nat (dataBeg l + Z.of_nat i))
      with (Z.to_nat (dataBeg l) + i)%nat by lia.
    rewrite <- downlink_lookup by done.
    destruct (lookup_lt_is_Some_2 (downlink l) i) as [b Hbyte]; [lia|].
    rewrite Hbyte.
    rewrite length_app, length_take, length_drop.
    destruct (Z.ltb_spec (Z.of_nat i)
                (Z.of_nat (i `min` length (downlink l)
                           + (length buffer - i)))) as [Hin'|Hout].
    + assert (Hicap : (i < length buffer)%nat) by lia.
      destruct (lookup_lt_is_Some_2 buffer i) as [x Hx]; [lia|].
      assert (Hw : wrap8 (Z.of_nat i + 1) = Z.of_nat (S i)).
      { unfold wrap8. rewrite Z.mod_small; lia. }
      rewrite Hw, Nat2Z.id.
      assert (Hbuf : <[i:=b]> (take i (downlink l) ++ drop i buffer)
                     = take (S i) (downlink l) ++ drop (S i) buffer).
      { rewrite (drop_S _ _ _ Hx), (take_S_r _ _ _ Hbyte), <- app_assoc.
        simpl.
        replace i with (length (take i (downlink l)) + 0)%nat at 1
          by (rewrite length_take; lia).
        by rewrite insert_app_r. }
      rewrite Hbuf. apply IH; [done|lia|lia|lia].
    + assert (Hicap : i = length buffer) by lia.
      destruct (Nat.leb_spec (Z.to_nat (dataLen l)) (length buffer)); [lia|].
      subst i. rewrite drop_all, app_nil_r. done.
  - assert (Hi' : i = Z.to_nat (dataLen l)) by lia.
    destruct (Nat.leb_spec (Z.to_nat (dataLen l)) (length buffer)); [|lia].
    subst i. rewrite take_ge by lia. done.
Qed.

(** C9. [ttn_response] does not look at [len]. For every received
    downlink (lying in the frame buffer, its length a [u1_t]) the call
    returns after copying [LMIC.dataLen] bytes: a buffer that is long
    enough afterwards starts with the payload and is unchanged behind it;
    a buffer shorter than the payload is filled with a prefix of the
    payload and the next byte is written out of its bounds. *)
Theorem C9_ttn_response_copies_dataLen_bytes
    (fuel : nat) (buffer : list byte) (len : Z) (s : State) :
  downlink_in_frame (LMIC s) ->
  (Z.to_nat (ttn_response_len s) < fuel)%nat ->
  (forall len', ttn_response fuel buffer len' s
                = ttn_response fuel buffer len s) /\
  length (downlink (LMIC s)) = Z.to_nat (ttn_response_len s) /\
  ((ttn_response_len s <= Z.of_nat (length buffer) ->
    ttn_response fuel buffer len s
    = Some (inr (downlink (LMIC s)
                 ++ drop (Z.to_nat (ttn_response_len s)) buffer))) /\
   (Z.of_nat (length buffer) < ttn_response_len s ->
    ttn_response fuel buffer len s
    = Some (inl (WriteOutOfBounds (Z.of_nat (length buffer))
                   (take (length buffer) (downlink (LMIC s))))))).
Proof.
  intros Hwf Hfuel. unfold ttn_response_len in *.
  split; [done|]. split; [by apply downlink_length|].
  pose proof (ttn_response_loop_returns (LMIC s) buffer fuel 0%nat Hwf) as H.
  change (Z.of_nat 0) with 0 in H. rewrite take_0, drop_0 in H. simpl in H.
  unfold ttn_response.
  destruct Hwf as (_ & Hl & _). unfold is_u8 in Hl.
  split; intros Hcap; rewrite H by lia.
  - destruct (Nat.leb_spec (Z.to_nat (dataLen (LMIC s))) (length buffer));
      [done|lia].
  - destruct (Nat.leb_spec (Z.to_nat (dataLen (LMIC s))) (length buffer));
      [lia|done].
Qed.

Lemma C9_ttn_response_copies_dataLen_bytes_witness :
  ttn_response 7 (replicate 8 xff) 8 (received (booted 0 store_empty 0))
  = Some (inr [x0a; x0b; x0c; x0d; x0e; x0f; xff; xff]) /\
  ttn_response 7 (replicate 4 xff) 4 (received (booted 0 store_empty 0))
  = Some (inl (WriteOutOfBounds 4 [x0a; x0b; x0c; x0d])).
Proof.
  split.
  - apply (C9_ttn_response_copies_dataLen_bytes 7 (replicate 8 xff) 8
             (received (booted 0 store_empty 0))).
    + unfold downlink_in_frame, is_u8. repeat split; by vm_compute.
    + vm_compute. lia.
    + by vm_compute.
  - apply (C9_ttn_response_copies_dataLen_bytes 7 (replicate 4 xff) 4
             (received (booted 0 store_empty 0))).
    + unfold downlink_in_frame, is_u8. repeat split; by vm_compute.
    + vm_compute. lia.
    + by vm_compute.
Defined.

(** * The rest of the wrapper and of the sketch: properties *)

(** ** Publishing several events *)

Lemma publish_all_returns fuel evs : forall s,
  registry_fits s ->
  (length (_lmic_callbacks s) < fuel)%nat ->
  exists s',
    publish_all fuel evs s = Some s' /\
    invoked s' = invoked s ++ deliveries evs (_lmic_callbacks s) /\
    _lmic_callbacks s' = _lmic_callbacks s /\
    count s' = count s /\ lastWriteMsec s' = lastWriteMsec s /\
    LMIC s' = LMIC s /\ prefs s' = prefs s.
Proof.
  induction evs as [|e evs IH]; intros s Hfit Hfuel; simpl.
  - exists s. rewrite app_nil_r. done.
  - rewrite _ttn_callback_returns by done. simpl.
    destruct (IH (deliver e (_lmic_callbacks s) s))
      as (s' & Hrun & Hinv & Hcb & Hc & Hl & HL & Hp).
    + unfold registry_fits. by rewrite deliver_callbacks.
    + by rewrite deliver_callbacks.
    + exists s'. split; [done|]. autorewrite with frame in *.
      rewrite Hinv, <- app_assoc. done.
Qed.

(** X1. Events published one after the other reach the observers in the
    order of publication, each event going to every observer in the
    order of subscription before the next event is taken up. *)
Theorem publish_all_in_publication_order
    (fuel : nat) (evs : list ev_t) (s : State) :
  registry_fits s ->
  (length (_lmic_callbacks s) < fuel)%nat ->
  exists s',
    publish_all fuel evs s = Some s' /\
    invoked s' = invoked s ++ deliveries evs (_lmic_callbacks s) /\
    length (invoked s')
    = (length (invoked s) + length evs * length (_lmic_callbacks s))%nat.
Proof.
  intros Hfit Hfuel.
  destruct (publish_all_returns fuel evs s Hfit Hfuel) as (s' & H & Hinv & _).
  exists s'. split; [done|]. split; [done|].
  rewrite Hinv, length_app. f_equal. clear.
  unfold deliveries. induction evs as [|e evs IH]; simpl; [done|].
  rewrite length_app, length_map, IH. done.
Qed.

Lemma publish_all_in_publication_order_witness :
  exists s',
    publish_all 3 [EV_ACK; EV_TXCOMPLETE]
                (register_all [4; 9]%nat (boot 0 store_empty 0)) = Some s' /\
    invoked s' = [(4, EV_ACK); (9, EV_ACK);
                  (4, EV_TXCOMPLETE); (9, EV_TXCOMPLETE)]%nat.
Proof.
  destruct (publish_all_in_publication_order 3 [EV_ACK; EV_TXCOMPLETE]
              (register_all [4; 9]%nat (boot 0 store_empty 0)))
    as (s' & H1 & H2 & _).
  - unfold registry_fits. simpl. lia.
  - simpl. lia.
  - exists s'. split; [exact H1|exact H2].
Defined.

(** ** Events from the radio *)

Lemma persist_session_frame s :
  count (persist_session s) = count s /\
  lastWriteMsec (persist_session s) = lastWriteMsec s /\
  _lmic_callbacks (persist_session s) = _lmic_callbacks s /\
  invoked (persist_session s) = invoked s /\
  LMIC (persist_session s) = LMIC s.
Proof. unfold persist_session. by case_match. Qed.

Lemma onEvent_as_publish_all b flags fuel event s :
  onEvent b flags fuel event s
  = match event with
    | EV_JOINED =>
        _ttn_callback fuel EV_JOINED
          (persist_session
             ((if LORAWAN_ADR b then id
               else with_LMIC (LMIC_setLinkCheckMode 0))
                ((if SINGLE_CHANNEL_GATEWAY b
                  then forceTxSingleChannelDr b else id) s)))
    | _ => publish_all fuel (raised flags (LMIC s) event) s
    end.
Proof.
  unfold onEvent, raised.
  destruct event; simpl;
    try (destruct (_ttn_callback fuel _ s); done).
  - by destruct (SINGLE_CHANNEL_GATEWAY b), (LORAWAN_ADR b).
  - destruct (Z.land flags TXRX_ACK =? 0); simpl.
    + destruct (dataLen (LMIC s) =? 0); simpl;
        [by destruct (_ttn_callback fuel _ s)|].
      destruct (_ttn_callback fuel EV_RESPONSE s); simpl; [|done].
      by destruct (_ttn_callback fuel _ _).
    + destruct (_ttn_callback fuel EV_ACK s) as [s1|] eqn:E; simpl; [|done].
      assert (HL : LMIC s1 = LMIC s).
      { unfold _ttn_callback in E. apply _ttn_callback_loop_keeps in E. tauto. }
      rewrite HL. destruct (dataLen (LMIC s) =? 0); simpl;
        [by destruct (_ttn_callback fuel EV_TXCOMPLETE s1)|].
      destruct (_ttn_callback fuel EV_RESPONSE s1); simpl; [|done].
      by destruct (_ttn_callback fuel EV_TXCOMPLETE _).
  - destruct (dataLen (LMIC s) =? 0); simpl;
      [by destruct (_ttn_callback fuel _ s)|].
    destruct (_ttn_callback fuel EV_RESPONSE s); simpl; [|done].
    by destruct (_ttn_callback fuel _ _).
Qed.

(** X2. When the radio raises an event (and at most 255 observers are
    registered) [onEvent] returns; the observers have then received, in
    this order, EV_ACK if the event is EV_TXCOMPLETE with the ACK flag,
    EV_RESPONSE if it is EV_TXCOMPLETE or EV_RXCOMPLETE with a downlink,
    and last the event itself, each in subscription order. The counter,
    its write time, the registry and the radio's session are untouched,
    and unless the event is EV_JOINED so are the store and the radio. *)
Theorem onEvent_delivers_in_order
    (b : Build) (txrxFlags : Z) (fuel : nat) (event : ev_t) (s : State) :
  registry_fits s ->
  (length (_lmic_callbacks s) < fuel)%nat ->
  exists s',
    onEvent b txrxFlags fuel event s = Some s' /\
    invoked s'
    = invoked s
      ++ deliveries (raised txrxFlags (LMIC s) event) (_lmic_callbacks s) /\
    count s' = count s /\ lastWriteMsec s' = lastWriteMsec s /\
    _lmic_callbacks s' = _lmic_callbacks s /\
    session (LMIC s') = session (LMIC s) /\
    (event <> EV_JOINED -> prefs s' = prefs s /\ LMIC s' = LMIC s).
Proof.
  intros Hfit Hfuel. rewrite onEvent_as_publish_all.
  assert (Hgen : event <> EV_JOINED ->
    exists s',
      publish_all fuel (raised txrxFlags (LMIC s) event) s = Some s' /\
      invoked s'
      = invoked s
        ++ deliveries (raised txrxFlags (LMIC s) event) (_lmic_callbacks s) /\
      count s' = count s /\ lastWriteMsec s' = lastWriteMsec s /\
      _lmic_callbacks s' = _lmic_callbacks s /\
      session (LMIC s') = session (LMIC s) /\
      (event <> EV_JOINED -> prefs s' = prefs s /\ LMIC s' = LMIC s)).
  { intros _.
    destruct (publish_all_returns fuel (raised txrxFlags (LMIC s) event) s
                Hfit Hfuel) as (s' & H & Hinv & Hcb & Hc & Hl & HL & Hp).
    exists s'. rewrite HL. done. }
  destruct event; try (apply Hgen; discriminate).
  clear Hgen.
  set (s0 := persist_session _).
  assert (Hcb : _lmic_callbacks s0 = _lmic_callbacks s).
  { unfold s0. rewrite (proj1 (proj2 (proj2 (persist_session_frame _)))).
    unfold forceTxSingleChannelDr.
    by destruct (LORAWAN_ADR b), (SINGLE_CHANNEL_GATEWAY b). }
  rewrite _ttn_callback_returns;
    [|unfold registry_fits; by rewrite Hcb|by rewrite Hcb].
  eexists. split; [done|]. autorewrite with frame. rewrite Hcb.
  unfold s0.
  destruct (persist_session_frame
              ((if LORAWAN_ADR b then id
                else with_LMIC (LMIC_setLinkCheckMode 0))
                 ((if SINGLE_CHANNEL_GATEWAY b
                   then forceTxSingleChannelDr b else id) s)))
    as (-> & -> & _ & -> & ->).
  unfold forceTxSingleChannelDr, deliveries, raised. simpl.
  rewrite app_nil_r.
  destruct (LORAWAN_ADR b), (SINGLE_CHANNEL_GATEWAY b); done.
Qed.

Lemma onEvent_delivers_in_order_witness :
  exists s',
    onEvent build_otaa TXRX_ACK 3 EV_TXCOMPLETE
            (received (register_all [4; 9]%nat (boot 0 store_empty 0)))
    = Some s' /\
    invoked s'
    = [(4, EV_ACK); (9, EV_ACK); (4, EV_RESPONSE); (9, EV_RESPONSE);
       (4, EV_TXCOMPLETE); (9, EV_TXCOMPLETE)]%nat.
Proof.
  destruct (onEvent_delivers_in_order build_otaa TXRX_ACK 3 EV_TXCOMPLETE
              (received (register_all [4; 9]%nat (boot 0 store_empty 0))))
    as (s' & H1 & H2 & _).
  - unfold registry_fits. simpl. lia.
  - simpl. lia.
  - exists s'. split; [exact H1|exact H2].
Defined.

(** ** The session across a restart *)

Lemma lookup_after_persist k n :
  let n' := p_putBytes "artKey" (artKey k)
              (p_putBytes "nwkKey" (nwkKey k)
                 (p_putUInt "devAddr" (devaddr k)
                    (p_putUInt "netId" (netid k) n))) in
  nvs_data n' !! "netId" = Some (PUInt (netid k)) /\
  nvs_data n' !! "devAddr" = Some (PUInt (devaddr k)) /\
  nvs_data n' !! "nwkKey" = Some (PBytes (nwkKey k)) /\
  nvs_data n' !! "artKey" = Some (PBytes (artKey k)) /\
  nvs_data n' !! "count" = nvs_data n !! "count" /\
  nvs_ro_ok n' = nvs_ro_ok n /\ nvs_rw_ok n' = nvs_rw_ok n.
Proof.
  simpl. unfold p_putBytes, p_putUInt, p_put. simpl.
  repeat split; by simplify_map_eq.
Qed.

(** What OTAA activation does when both keys are there. *)
Lemma ttn_join_otaa_restores cfg fuel s nk ak :
  ACTIVATION cfg = USE_OTAA ->
  registry_fits s ->
  (length (_lmic_callbacks s) < fuel)%nat ->
  nvs_ro_ok (prefs s) = true ->
  nvs_data (prefs s) !! "nwkKey" = Some (PBytes nk) -> length nk = 16%nat ->
  nvs_data (prefs s) !! "artKey" = Some (PBytes ak) -> length ak = 16%nat ->
  exists s',
    ttn_join cfg fuel s = Some s' /\
    session (LMIC s')
    = Some {| netid := p_getUInt true "netId" UINT32_MAX (prefs s);
              devaddr := p_getUInt true "devAddr" UINT32_MAX (prefs s);
              nwkKey := nk; artKey := ak |} /\
    invoked s'
    = invoked s ++ map (fun f => (f, EV_JOINED)) (_lmic_callbacks s) /\
    _lmic_callbacks s' = _lmic_callbacks s /\
    prefs s' = prefs s /\ count s' = count s.
Proof.
  intros Hmode Hfit Hfuel Hro Hnk Hnl Hak Hal.
  unfold ttn_join. rewrite Hmode. simpl. unfold p_begin. rewrite Hro.
  unfold p_getBytes. rewrite Hnk, Hak, Hnl, Hal. simpl.
  rewrite _ttn_callback_returns; [|done|done].
  eexists. split; [done|]. autorewrite with frame. done.
Qed.

Lemma ttn_join_otaa_falls_back cfg fuel s :
  ACTIVATION cfg = USE_OTAA ->
  nvs_ro_ok (prefs s) = false \/
  ~ key_stored (prefs s) "nwkKey" \/ ~ key_stored (prefs s) "artKey" ->
  exists s',
    ttn_join cfg fuel s = Some s' /\
    session (LMIC s') = None /\
    Z.land (opmode (LMIC s')) OP_JOINING = OP_JOINING /\
    invoked s' = invoked s /\ prefs s' = prefs s /\ count s' = count s.
Proof.
  intros Hmode Hbad. unfold ttn_join. rewrite Hmode. simpl.
  unfold p_begin. rewrite (keysgood_false _ Hbad). simpl.
  eexists. split; [done|]. done.
Qed.

(** X3. A session that the radio reports with EV_JOINED is the session that
    OTAA activation installs after a restart, provided the store opens
    both times: if the store opens for writing when [onEvent] handles
    EV_JOINED, then on any later state that holds what the store held
    then (and at most 255 observers) [ttn_join] installs the same network
    id, device address and keys and calls the observers with EV_JOINED
    when the store opens for reading; when the store does not open for
    reading, [ttn_join] carries on regardless, installs no session,
    calls no observer and leaves the radio joining from scratch. *)
Theorem session_survives_restart
    (b : Build) (txrxFlags : Z) (fuel fuel2 : nat) (k : Session)
    (s s2 : State) :
  ACTIVATION (base b) = USE_OTAA ->
  registry_fits s -> (length (_lmic_callbacks s) < fuel)%nat ->
  registry_fits s2 -> (length (_lmic_callbacks s2) < fuel2)%nat ->
  session (LMIC s) = Some k -> session_wf k ->
  nvs_rw_ok (prefs s) = true ->
  exists s1,
    onEvent b txrxFlags fuel EV_JOINED s = Some s1 /\
    (nvs_data (prefs s2) = nvs_data (prefs s1) ->
     (nvs_ro_ok (prefs s2) = true ->
      exists s3,
        ttn_join (base b) fuel2 s2 = Some s3 /\
        session (LMIC s3) = Some k /\
        invoked s3
        = invoked s2 ++ map (fun f => (f, EV_JOINED)) (_lmic_callbacks s2)) /\
     (nvs_ro_ok (prefs s2) = false ->
      exists s3,
        ttn_join (base b) fuel2 s2 = Some s3 /\
        session (LMIC s3) = None /\
        Z.land (opmode (LMIC s3)) OP_JOINING = OP_JOINING /\
        invoked s3 = invoked s2)).
Proof.
  intros Hmode Hfit Hfuel Hfit2 Hfuel2 Hk (Hnl & Hal) Hrw.
  rewrite onEvent_as_publish_all.
  set (s0 := (if LORAWAN_ADR b then id else with_LMIC (LMIC_setLinkCheckMode 0))
               ((if SINGLE_CHANNEL_GATEWAY b
                 then forceTxSingleChannelDr b else id) s)).
  assert (H0 : prefs s0 = prefs s /\ session (LMIC s0) = Some k /\
               _lmic_callbacks s0 = _lmic_callbacks s).
  { unfold s0, forceTxSingleChannelDr.
    by destruct (LORAWAN_ADR b), (SINGLE_CHANNEL_GATEWAY b). }
  destruct H0 as (Hp0 & Hk0 & Hcb0).
  destruct (persist_session_frame s0) as (_ & _ & Hcb & _ & _).
  rewrite _ttn_callback_returns;
    [|unfold registry_fits; by rewrite Hcb, Hcb0|by rewrite Hcb, Hcb0].
  eexists. split; [done|]. intros Hp2.
  rewrite deliver_prefs in Hp2.
  unfold persist_session, p_begin, LMIC_getSessionKeys in Hp2.
  rewrite Hp0, Hrw, Hk0 in Hp2. cbn [prefs with_prefs default] in Hp2.
  rewrite Hp0 in Hp2.
  destruct (lookup_after_persist k (prefs s))
    as (Hnet & Hdev & Hnwk & Hart & _).
  cbv zeta in Hnet, Hdev, Hnwk, Hart. unfold id in Hp2.
  rewrite <- Hp2 in Hnet, Hdev, Hnwk, Hart. split.
  - intros Hro.
    destruct (ttn_join_otaa_restores (base b) fuel2 s2 (nwkKey k) (artKey k))
      as (s3 & H3 & Hs3 & Hi3 & _); try done.
    exists s3. split; [done|]. split; [|done].
    rewrite Hs3. unfold p_getUInt. rewrite Hnet, Hdev. by destruct k.
  - intros Hro.
    destruct (ttn_join_otaa_falls_back (base b) fuel2 s2 Hmode)
      as (s3 & H3 & Hs3 & Hop & Hi3 & _); [by left|].
    by exists s3.
Qed.

Lemma session_survives_restart_witness :
  exists s1,
    onEvent build_otaa 0 2 EV_JOINED
            (joined_with sample_session (booted 0 store_empty 0)) = Some s1 /\
    exists s3,
      ttn_join cfg_otaa 2 (booted 0 (prefs s1) 0) = Some s3 /\
      session (LMIC s3) = Some sample_session.
Proof.
  destruct (session_survives_restart build_otaa 0 2 2 sample_session
              (joined_with sample_session (booted 0 store_empty 0))
              (booted 0
                 (prefs (persist_session
                    (with_LMIC (LMIC_setLinkCheckMode 0)
                       (joined_with sample_session
                          (booted 0 store_empty 0))))) 0))
    as (s1 & H1 & H2).
  - reflexivity.
  - unfold registry_fits. simpl. lia.
  - simpl. lia.
  - unfold registry_fits. simpl. lia.
  - simpl. lia.
  - reflexivity.
  - split; reflexivity.
  - reflexivity.
  - exists s1. split; [exact H1|].
    assert (Hp : prefs s1
                 = prefs (persist_session
                     (with_LMIC (LMIC_setLinkCheckMode 0)
                        (joined_with sample_session
                           (booted 0 store_empty 0))))).
    { vm_compute in H1. injection H1 as <-. vm_compute. reflexivity. }
    rewrite Hp. destruct H2 as [H2 _]; [by rewrite Hp|].
    destruct H2 as (s3 & H3 & H4 & _); [reflexivity|].
    exists s3. split; [exact H3|exact H4].
Defined.

(** ** The counter across a power loss *)

Lemma stored_count_put v n : stored_count (p_putUInt "count" v n) = Some v.
Proof. unfold stored_count, p_putUInt, p_put. simpl. by simplify_map_eq. Qed.

Lemma initCount_count s :
  count (initCount s)
  = if count s =? 0
    then (if nvs_ro_ok (prefs s) then default 0 (stored_count (prefs s))
          else 0)
    else count s.
Proof.
  unfold initCount, p_begin, p_getUInt, stored_count.
  destruct (Z.eqb_spec (count s) 0) as [E|E]; [|done].
  destruct (nvs_ro_ok (prefs s)); [|done]. simpl.
  by destruct (nvs_data (prefs s) !! "count") as [[v|b]|].
Qed.

(** X4. A counter saved with [ttn_save_counter], the store opening for
    writing, is the counter that [initCount] finds after a power loss
    (when [count] in RTC memory has gone back to 0), provided the store
    then opens for reading; when it does not, [initCount] leaves the
    counter at 0. A counter that survived in RTC memory is kept and the
    store is not consulted. [initCount] changes nothing else. *)
Theorem saved_counter_is_restored (s s2 : State) :
  nvs_rw_ok (prefs s) = true ->
  nvs_data (prefs s2) = nvs_data (prefs (ttn_save_counter s)) ->
  count (initCount s2)
  = (if count s2 =? 0
     then if nvs_ro_ok (prefs s2) then count s else 0
     else count s2) /\
  prefs (initCount s2) = prefs s2 /\
  lastWriteMsec (initCount s2) = lastWriteMsec s2.
Proof.
  intros Hrw Hp. split.
  - rewrite initCount_count. unfold stored_count. rewrite Hp.
    unfold ttn_save_counter, p_begin. rewrite Hrw.
    cbn [prefs with_prefs].
    pose proof (stored_count_put (count s) (prefs s)) as Hput.
    unfold stored_count in Hput.
    destruct (nvs_data (p_putUInt "count" (count s) (prefs s)) !! "count")
      as [[v|bs]|]; simplify_eq. done.
  - unfold initCount. repeat case_match; split; reflexivity.
Qed.

Lemma saved_counter_is_restored_witness :
  count (initCount
           (boot 0 (prefs (ttn_save_counter (booted 57 store_empty 0))) 0))
  = 57.
Proof.
  destruct (saved_counter_is_restored (booted 57 store_empty 0)
              (boot 0 (prefs (ttn_save_counter (booted 57 store_empty 0))) 0))
    as [H _]; [reflexivity|reflexivity|exact H].
Defined.

Lemma do_send_prefs fuel rq s s' :
  do_send fuel rq s = Some s' ->
  prefs s'
  = if write_due (rq_now rq) (lastWriteMsec s) && nvs_rw_ok (prefs s)
    then p_putUInt "count" (count s) (prefs s) else prefs s.
Proof.
  unfold do_send. intros H. apply ttn_send_writes in H.
  destruct H as [-> _]. by rewrite ttn_set_cnt_prefs.
Qed.

Lemma do_send_not_ahead fuel rq s :
  registry_fits s ->
  (length (_lmic_callbacks s) < fuel)%nat ->
  is_u32 (count s) ->
  (accepted rq = true -> count s < UINT32_MAX) ->
  counter_not_ahead s ->
  exists s',
    do_send fuel rq s = Some s' /\
    _lmic_callbacks s' = _lmic_callbacks s /\
    count s' = count s + (if accepted rq then 1 else 0) /\
    counter_not_ahead s'.
Proof.
  intros Hfit Hfuel Hu Hmax Hinv.
  destruct (do_send_returns fuel rq s Hfit Hfuel) as (s' & H & Hcb & Hc).
  exists s'. split; [done|]. split; [done|].
  assert (Hc' : count s' = count s + (if accepted rq then 1 else 0)).
  { rewrite Hc. destruct (accepted rq); [|lia].
    apply wrap32_small. unfold is_u32 in *. specialize (Hmax eq_refl). lia. }
  split; [done|].
  intros v Hv. rewrite (do_send_prefs _ _ _ _ H) in Hv.
  destruct (write_due _ _ && _).
  - rewrite stored_count_put in Hv. inversion Hv; subst v.
    rewrite Hc'. destruct (accepted rq); lia.
  - apply Hinv in Hv. rewrite Hc'. destruct (accepted rq); lia.
Qed.

(** X5. The stored counter never runs ahead of the live one: if it is not
    ahead before a sequence of sends during which the counter does not
    pass [UINT32_MAX], it is not ahead afterwards, and what [initCount]
    restores from that store after a power loss is at most the counter
    reached. *)
Theorem stored_counter_never_ahead
    (fuel : nat) (rqs : list SendReq) (s : State) :
  registry_fits s ->
  (length (_lmic_callbacks s) < fuel)%nat ->
  is_u32 (count s) ->
  count s + accepted_count rqs <= UINT32_MAX ->
  counter_not_ahead s ->
  exists s',
    run_sends fuel rqs s = Some s' /\
    count s' = count s + accepted_count rqs /\
    counter_not_ahead s' /\
    (forall s2, count s2 = 0 -> prefs s2 = prefs s' ->
                count (initCount s2) <= count s').
Proof.
  revert s. induction rqs as [|rq rqs IH]; intros s Hfit Hfuel Hu Hmax Hinv.
  - exists s. split; [done|]. unfold accepted_count. simpl.
    split; [lia|]. split; [done|].
    intros s2 H0 Hp. rewrite initCount_count, H0, Hp. simpl.
    unfold is_u32 in Hu.
    destruct (nvs_ro_ok (prefs s)); [|lia].
    destruct (stored_count (prefs s)) as [v|] eqn:E; simpl; [|lia].
    by apply Hinv.
  - rewrite accepted_count_cons in Hmax.
    pose proof (accepted_count_nonneg rqs) as Hnn.
    destruct (do_send_not_ahead fuel rq s Hfit Hfuel Hu)
      as (s1 & H1 & Hcb & Hc1 & Hinv1); [|done|].
    { intros Ha. rewrite Ha in Hmax. lia. }
    destruct (IH s1) as (s' & Hrun & Hc' & Hinv' & Hrest).
    + unfold registry_fits. by rewrite Hcb.
    + by rewrite Hcb.
    + unfold is_u32 in *. rewrite Hc1. destruct (accepted rq); lia.
    + rewrite Hc1. lia.
    + done.
    + exists s'. simpl. rewrite H1. simpl. split; [done|].
      split; [rewrite Hc', Hc1, accepted_count_cons; lia|]. done.
Qed.

Lemma stored_counter_never_ahead_witness :
  exists s',
    run_sends 2 [req_idle 1000; req_idle 2000; req_busy 3000]
              (booted 41 store_empty 0) = Some s' /\
    count s' = 43 /\
    count (initCount (boot 0 (prefs s') 0)) <= count s'.
Proof.
  destruct (stored_counter_never_ahead 2
              [req_idle 1000; req_idle 2000; req_busy 3000]
              (booted 41 store_empty 0))
    as (s' & H1 & H2 & _ & H3).
  - unfold registry_fits. simpl. lia.
  - simpl. lia.
  - unfold is_u32, UINT32_MAX. simpl. lia.
  - vm_compute. discriminate.
  - intros v Hv. vm_compute in Hv. discriminate.
  - exists s'. split; [exact H1|]. split; [exact H2|].
    apply H3; reflexivity.
Defined.

(** ** Hexadecimal output *)

Lemma hex_value_digit d : 0 <= d < 16 -> hex_value (hex_digit d) = d.
Proof.
  intros Hd.
  assert (H : d = 0 \/ d = 1 \/ d = 2 \/ d = 3 \/ d = 4 \/ d = 5 \/ d = 6
              \/ d = 7 \/ d = 8 \/ d = 9 \/ d = 10 \/ d = 11 \/ d = 12
              \/ d = 13 \/ d = 14 \/ d = 15) by lia.
  repeat (destruct H as [->|H]; [reflexivity|]). by subst d.
Qed.

Lemma printNumber_S fuel n acc :
  printNumber (S fuel) n acc
  = if n / 16 =? 0 then String (hex_digit (n mod 16)) acc
    else printNumber fuel (n / 16) (String (hex_digit (n mod 16)) acc).
Proof. reflexivity. Qed.

Lemma printHex2_digits v :
  printHex2 v
  = String (hex_digit (Z.land v 255 / 16))
           (String (hex_digit (Z.land v 255 mod 16)) "").
Proof.
  unfold printHex2, Serial_print_HEX.
  assert (Hw : 0 <= Z.land v 255 < 256).
  { change 255 with (Z.ones 8). rewrite Z.land_ones by lia.
    apply Z.mod_pos_bound. lia. }
  set (w := Z.land v 255) in *.
  change 32%nat with (S (S 30)). rewrite printNumber_S.
  destruct (Z.ltb_spec w 16) as [Hlt|Hge].
  - rewrite (Z.div_small w 16) by lia.
    change (0 =? 0) with true. cbv iota. reflexivity.
  - assert (Hq : 1 <= w / 16 < 16).
    { split; [apply Z.div_le_lower_bound; lia
             |apply Z.div_lt_upper_bound; lia]. }
    destruct (Z.eqb_spec (w / 16) 0) as [E|_]; [lia|].
    rewrite printNumber_S.
    rewrite (Z.div_small (w / 16) 16) by lia.
    rewrite (Z.mod_small (w / 16) 16) by lia.
    change (0 =? 0) with true. cbv iota. reflexivity.
Qed.

Lemma parse_hex2_digits w :
  0 <= w < 256 ->
  parse_hex2 (String (hex_digit (w / 16)) (String (hex_digit (w mod 16)) ""))
  = Some w.
Proof.
  intros Hw. cbn [parse_hex2]. rewrite !hex_value_digit.
  - f_equal. pose proof (Z.div_mod w 16). lia.
  - apply Z.mod_pos_bound. lia.
  - split; [apply Z.div_pos; lia|apply Z.div_lt_upper_bound; lia].
Qed.

(** X6. [printHex2] always prints exactly two hexadecimal digits, and they
    read back as the low byte of its argument. *)
Theorem printHex2_two_digits_round_trip (v : Z) :
  String.length (printHex2 v) = 2%nat /\
  parse_hex2 (printHex2 v) = Some (v mod 256) /\
  (forall b : byte, printHex2 (Z.of_N (Byte.to_N b)) = snprintf_02X b).
Proof.
  rewrite printHex2_digits.
  assert (Hl : Z.land v 255 = v mod 256).
  { change 255 with (Z.ones 8). by rewrite Z.land_ones by lia. }
  assert (Hw : 0 <= v mod 256 < 256) by (apply Z.mod_pos_bound; lia).
  split; [done|]. split.
  - rewrite Hl. by apply parse_hex2_digits.
  - intros b. rewrite printHex2_digits. unfold snprintf_02X.
    assert (Hb : 0 <= Z.of_N (Byte.to_N b) < 256).
    { pose proof (Byte.to_N_bounded b). lia. }
    change 255 with (Z.ones 8). rewrite Z.land_ones by lia.
    change (2 ^ 8) with 256. rewrite Z.mod_small by lia. done.
Qed.

(** ** The device EUI *)

Ltac six_bytes dmac H :=
  destruct dmac as [|m0 [|m1 [|m2 [|m3 [|m4 [|m5 [|? ?]]]]]]];
  try discriminate H.

Lemma poke_inr i b buf :
  0 <= i < Z.of_nat (length buf) ->
  poke i b (inr buf) = inr (<[Z.to_nat i := b]> buf).
Proof.
  intros Hi. unfold poke.
  destruct (Z.leb_spec 0 i); [|lia].
  destruct (Z.ltb_spec i (Z.of_nat (length buf))); [done|lia].
Qed.

#[local] Arguments poke : simpl never.

Lemma gen_lora_deveui_writes dmac buf :
  length dmac = 6%nat -> (8 <= length buf)%nat ->
  gen_lora_deveui dmac buf
  = inr ([xff; xfe] ++ reverse dmac ++ drop 8 buf).
Proof.
  intros Hm Hb. six_bytes dmac Hm.
  unfold gen_lora_deveui. change (seqZ 0 6) with [0; 1; 2; 3; 4; 5].
  simpl.
  repeat (rewrite poke_inr by (rewrite ?length_insert; lia)).
  destruct buf as [|b0 [|b1 [|b2 [|b3 [|b4 [|b5 [|b6 [|b7 rest]]]]]]]];
    simpl in Hb; try lia.
  reflexivity.
Qed.

(** X7. [gen_lora_deveui] fills the first eight bytes of the buffer with
    FF FE and the six bytes of the MAC address in reverse order and
    leaves the rest alone; different MAC addresses give different EUIs,
    and a buffer of fewer than eight bytes is overrun. *)
Theorem gen_lora_deveui_reverses_mac (dmac dmac' buf : list byte) :
  length dmac = 6%nat -> length dmac' = 6%nat ->
  ((8 <= length buf)%nat ->
   gen_lora_deveui dmac buf
   = inr ([xff; xfe] ++ reverse dmac ++ drop 8 buf) /\
   (gen_lora_deveui dmac buf = gen_lora_deveui dmac' buf -> dmac = dmac')) /\
  ((length buf < 8)%nat -> exists e, gen_lora_deveui dmac buf = inl e).
Proof.
  intros Hm Hm'. split.
  - intros Hb. split; [by apply gen_lora_deveui_writes|].
    rewrite !gen_lora_deveui_writes by done. intros H.
    injection H as H. apply app_inv_tail in H.
    apply (f_equal reverse) in H. by rewrite !reverse_involutive in H.
  - intros Hb. six_bytes dmac Hm.
    destruct buf as [|b0 [|b1 [|b2 [|b3 [|b4 [|b5 [|b6 [|b7 rest]]]]]]]];
      simpl in Hb; try lia; eexists; reflexivity.
Qed.

Lemma gen_lora_deveui_reverses_mac_witness :
  gen_lora_deveui [x24; x6f; x28; x0a; x1b; x2c] (replicate 8 x00)
  = inr [xff; xfe; x2c; x1b; x0a; x28; x6f; x24].
Proof.
  apply (gen_lora_deveui_reverses_mac [x24; x6f; x28; x0a; x1b; x2c]
           [x24; x6f; x28; x0a; x1b; x2c] (replicate 8 x00));
    [reflexivity|reflexivity|simpl; lia].
Defined.

Lemma forallb_zero_generated dmac :
  forallb is_zero_byte ([xff; xfe] ++ reverse dmac) = false.
Proof. reflexivity. Qed.

(** X8. After [initDevEUI] the eight-byte [DEVEUI] is never all zero: an EUI
    that was configured is kept as it is, an all-zero one is replaced by
    FF FE followed by the reversed MAC address; running it again changes
    nothing. *)
Theorem initDevEUI_never_leaves_zero (dmac DEVEUI : list byte) :
  length dmac = 6%nat -> length DEVEUI = 8%nat ->
  exists eui,
    initDevEUI dmac DEVEUI = inr eui /\
    length eui = 8%nat /\
    forallb is_zero_byte eui = false /\
    (forallb is_zero_byte DEVEUI = false -> eui = DEVEUI) /\
    (forallb is_zero_byte DEVEUI = true -> eui = [xff; xfe] ++ reverse dmac) /\
    initDevEUI dmac eui = inr eui.
Proof.
  intros Hm Hd. unfold initDevEUI at 1.
  destruct (forallb is_zero_byte DEVEUI) eqn:Hz.
  - rewrite gen_lora_deveui_writes by (done || lia).
    rewrite drop_ge by lia. rewrite app_nil_r.
    eexists. split; [done|]. split.
    { simpl. rewrite length_reverse. lia. }
    split; [done|]. split; [done|]. split; [done|].
    unfold initDevEUI. by rewrite forallb_zero_generated.
  - exists DEVEUI. split; [done|]. split; [done|]. split; [done|].
    split; [done|]. split; [done|]. unfold initDevEUI. by rewrite Hz.
Qed.

Lemma initDevEUI_never_leaves_zero_witness :
  initDevEUI [x24; x6f; x28; x0a; x1b; x2c] (replicate 8 x00)
  = inr [xff; xfe; x2c; x1b; x0a; x28; x6f; x24].
Proof.
  destruct (initDevEUI_never_leaves_zero [x24; x6f; x28; x0a; x1b; x2c]
              (replicate 8 x00)) as (eui & H & _ & _ & _ & He & _);
    [reflexivity|reflexivity|].
  rewrite H, He; reflexivity.
Defined.

(** ** What an accepted send hands to the radio *)

(** X9. When no operation is outstanding (and at most 255 observers are
    registered) [ttn_send] makes two calls to the radio, in this order:
    [LMIC_setSeqnoUp] with the counter as it stands before the increment,
    and [LMIC_setTxData2] with the port, the first [data_size] bytes of
    the data (exactly [data_size] of them when the array is that long)
    and the confirmed flag as 1 or 0. It calls every observer once with
    EV_QUEUED, has counted the send when it returns, and leaves the
    session alone. What the radio answers to [LMIC_setTxData2] plays no
    part. *)
Theorem ttn_send_accepted_submits
    (fuel : nat) (data : list byte) (data_size port : Z) (confirmed : bool)
    (s : State) :
  registry_fits s ->
  (length (_lmic_callbacks s) < fuel)%nat ->
  radio_busy s = false ->
  is_u8 port -> is_u8 data_size ->
  data_size <= Z.of_nat (length data) ->
  exists s',
    ttn_send fuel data data_size port confirmed s = Some s' /\
    calls (LMIC s')
    = calls (LMIC s)
      ++ [Call_setSeqnoUp (count s);
          Call_setTxData2
            {| txPort := port; txData := take (Z.to_nat data_size) data;
               txConf := if confirmed then 1 else 0 |}] /\
    Z.of_nat (length (take (Z.to_nat data_size) data)) = data_size /\
    invoked s'
    = invoked s ++ map (fun f => (f, EV_QUEUED)) (_lmic_callbacks s) /\
    count s' = wrap32 (count s + 1) /\
    session (LMIC s') = session (LMIC s).
Proof.
  intros Hfit Hfuel Hidle Hport Hsize Hlen.
  rewrite ttn_send_returns by done. unfold sent. rewrite Hidle.
  eexists. split; [done|]. cbn [LMIC set_count invoked count].
  autorewrite with frame. cbn [LMIC with_LMIC invoked].
  autorewrite with frame.
  unfold LMIC_setTxData2, LMIC_setSeqnoUp, lmic_log.
  cbn [calls session]. rewrite <- app_assoc.
  split; [done|]. split; [|done].
  unfold is_u8 in Hsize. rewrite length_take. lia.
Qed.

Lemma ttn_send_accepted_submits_witness :
  exists s',
    ttn_send 2 [x03; x88; x11; x22] 3 10 true (booted 41 store_empty 0)
    = Some s' /\
    calls (LMIC s')
    = [Call_setSeqnoUp 41;
       Call_setTxData2
         {| txPort := 10; txData := [x03; x88; x11]; txConf := 1 |}].
Proof.
  destruct (ttn_send_accepted_submits 2 [x03; x88; x11; x22] 3 10 true
              (booted 41 store_empty 0)) as (s' & H1 & H2 & _).
  - unfold registry_fits. simpl. lia.
  - simpl. lia.
  - reflexivity.
  - unfold is_u8. lia.
  - unfold is_u8. lia.
  - simpl. lia.
  - exists s'. split; [exact H1|exact H2].
Defined.

(** ** The bookkeeping of [trySendNew] *)

(** X10. [trySendNew] marks a packet as queued and not yet sent whether or not
    the radio took it: after a send that was discarded as busy
    [packetQueued] is set all the same, and nothing was handed to the
    radio. When LORAWAN_CONFIRMED_EVERY is not positive no uplink is ever
    asked to be confirmed. *)
Theorem trySendNew_marks_queued_even_when_discarded
    (cfg : Config) (fuel : nat) (payload : list byte) (s : State) :
  registry_fits s ->
  (length (_lmic_callbacks s) < fuel)%nat ->
  exists s',
    trySendNew cfg fuel payload s = Some s' /\
    packetQueued s' = true /\ packetSent s' = false /\
    (radio_busy s = true ->
     submitted (LMIC s') = submitted (LMIC s) /\ count s' = count s) /\
    (radio_busy s = false -> LORAWAN_CONFIRMED_EVERY cfg <= 0 ->
     confirmed_flags s' = confirmed_flags s ++ [0]).
Proof.
  intros Hfit Hfuel. unfold trySendNew.
  rewrite ttn_send_returns; [|done|done].
  eexists. split; [done|]. unfold sent.
  change (radio_busy (set_packet _ _ (set_packet _ _ s))) with (radio_busy s).
  destruct (radio_busy s).
  - autorewrite with frame. cbn [packetQueued packetSent set_packet LMIC count].
    rewrite submitted_setSeqnoUp. repeat split; done.
  - cbn [packetQueued packetSent set_count LMIC].
    autorewrite with frame.
    cbn [packetQueued packetSent with_LMIC LMIC].
    autorewrite with frame. cbn [packetQueued packetSent set_packet LMIC].
    split; [done|]. split; [done|]. split; [done|].
    intros _ HN. unfold confirmed_flags. cbn [LMIC set_count].
    autorewrite with frame. cbn [LMIC with_LMIC]. autorewrite with frame.
    unfold submitted, LMIC_setTxData2, LMIC_setSeqnoUp, lmic_log.
    cbn [calls LMIC set_packet].
    rewrite !omap_app, map_app. simpl. rewrite app_nil_r.
    destruct (Z.ltb_spec 0 (LORAWAN_CONFIRMED_EVERY cfg)); [lia|done].
Qed.

Lemma trySendNew_marks_queued_even_when_discarded_witness :
  exists s',
    trySendNew cfg_otaa 2 [x03; x88]
               (arrive 1000 OP_TXRXPEND (booted 41 store_empty 0)) = Some s' /\
    packetQueued s' = true /\ packetSent s' = false.
Proof.
  destruct (trySendNew_marks_queued_even_when_discarded cfg_otaa 2 [x03; x88]
              (arrive 1000 OP_TXRXPEND (booted 41 store_empty 0)))
    as (s' & H1 & H2 & H3 & _).
  - unfold registry_fits. simpl. lia.
  - simpl. lia.
  - exists s'. split; [exact H1|]. split; [exact H2|exact H3].
Defined.

(** ** Erasing the store *)

(** X11. Once [ttn_erase_prefs] has opened the store, nothing is left in it:
    on whatever state carries that store afterwards, OTAA activation
    installs no session and schedules a full join without calling an
    observer, and [initCount] restarts a lost counter at 0. When the
    store does not open, nothing is erased. *)
Theorem erase_prefs_forces_full_join
    (cfg : Config) (fuel : nat) (s s2 : State) :
  ACTIVATION cfg = USE_OTAA ->
  prefs s2 = prefs (ttn_erase_prefs s) ->
  (nvs_rw_ok (prefs s) = true ->
   nvs_data (prefs s2) = ∅ /\
   (exists s3,
      ttn_join cfg fuel s2 = Some s3 /\
      session (LMIC s3) = None /\
      Z.land (opmode (LMIC s3)) OP_JOINING = OP_JOINING /\
      invoked s3 = invoked s2) /\
   (count s2 = 0 -> count (initCount s2) = 0)) /\
  (nvs_rw_ok (prefs s) = false -> ttn_erase_prefs s = s).
Proof.
  intros Hmode Hp. unfold ttn_erase_prefs, p_begin in *.
  destruct (nvs_rw_ok (prefs s)); split; try done; intros _.
  cbn [prefs with_prefs] in Hp.
  assert (He : nvs_data (prefs s2) = ∅) by (by rewrite Hp).
  split; [done|]. split.
  - destruct (ttn_join_otaa_falls_back cfg fuel s2 Hmode)
      as (s3 & H3 & Hs & Hop & Hi & _).
    + right. left. intros (bs & Hb & _). rewrite He in Hb. done.
    + by exists s3.
  - intros H0. rewrite initCount_count, H0. simpl.
    unfold stored_count. rewrite He.
    by destruct (nvs_ro_ok (prefs s2)).
Qed.

Lemma erase_prefs_forces_full_join_witness :
  exists s3,
    ttn_join cfg_otaa 2
      (booted 0 (prefs (ttn_erase_prefs (booted 9 store_keys_only 0))) 0)
    = Some s3 /\
    session (LMIC s3) = None.
Proof.
  destruct (erase_prefs_forces_full_join cfg_otaa 2
              (booted 9 store_keys_only 0)
              (booted 0 (prefs (ttn_erase_prefs (booted 9 store_keys_only 0)))
                      0)) as [H _].
  - reflexivity.
  - reflexivity.
  - destruct H as (_ & (s3 & H3 & H4 & _) & _); [reflexivity|].
    exists s3. split; [exact H3|exact H4].
Defined.

(** ** The observer of the sketch *)

Lemma print_response_loop_prints fuel len data : forall (i : nat) k,
  len = Z.of_nat (length data) -> len < 256 ->
  (i <= length data)%nat ->
  (length data - i < fuel)%nat ->
  print_response_loop fuel (Z.of_nat i) len data k
  = Some (inr {| ttn := ttn k; autoScaleTX := autoScaleTX k;
                 adjusted_SEND_INTERVAL := adjusted_SEND_INTERVAL k;
                 justSendNow := justSendNow k; wasPressed := wasPressed k;
                 minPressMs := minPressMs k;
                 screen := screen k ++ map snprintf_02X (drop i data) |}).
Proof.
  induction fuel as [|fuel IH]; intros i k Hlen H8 Hi Hfuel; [lia|].
  simpl. destruct (Z.ltb_spec (Z.of_nat i) len) as [Hlt|Hge].
  - rewrite Nat2Z.id.
    destruct (lookup_lt_is_Some_2 data i) as [b Hb]; [lia|]. rewrite Hb.
    assert (Hw : wrap8 (Z.of_nat i + 1) = Z.of_nat (S i)).
    { unfold wrap8. rewrite Z.mod_small; lia. }
    rewrite Hw, IH by (done || lia). simpl.
    rewrite (drop_S _ _ _ Hb). simpl. by rewrite <- app_assoc.
  - rewrite drop_ge by lia. simpl. rewrite app_nil_r. by destruct k.
Qed.

Lemma print_response_loop_appends fuel len data : forall i k k',
  print_response_loop fuel i len data k = Some (inr k') ->
  ttn k' = ttn k /\
  exists bs, screen k' = screen k ++ map snprintf_02X bs.
Proof.
  induction fuel as [|fuel IH]; intros i k k' H; [done|].
  simpl in H. case_match.
  - case_match; [|done]. apply IH in H as (Ht & bs & Hs). simpl in *.
    split; [done|]. eexists (_ :: bs). rewrite Hs, <- app_assoc. done.
  - inversion H; subst. split; [done|]. exists []. by rewrite app_nil_r.
Qed.

Lemma callback_ttn_after fuel message k :
  message <> EV_RESPONSE ->
  port_byte_readable (LMIC (ttn k)) ->
  exists k',
    callback fuel message k = Some (inr k') /\
    ttn k'
    = (if bool_decide (message = EV_TXCOMPLETE) && packetQueued (ttn k)
       then set_packet true false (ttn k) else ttn k).
Proof.
  intros Hne Hrd. unfold port_byte_readable in Hrd.
  destruct message; try done; unfold callback; simpl;
    try (eexists; split; done).
  destruct (packetQueued (ttn k)); simpl; [|by eexists].
  destruct (Z.eqb_spec (dataLen (LMIC (ttn k))) 6) as [E|E]; simpl;
    [|by eexists].
  specialize (Hrd E).
  destruct (Z.leb_spec 0 (dataBeg (LMIC (ttn k)) - 1)); [|lia].
  destruct (Z.ltb_spec (dataBeg (LMIC (ttn k)) - 1)
              (Z.of_nat (length (frame (LMIC (ttn k)))))); [|lia].
  simpl. by eexists.
Qed.

(** X12. For every event but EV_RESPONSE the observer of the sketch returns
    (given that the byte in front of a six-byte downlink lies in the
    frame). It raises [packetSent], and clears [packetQueued], exactly on
    an EV_TXCOMPLETE that finds a packet queued; on every other event,
    and on an EV_TXCOMPLETE without a queued packet, the state of the
    wrapper is left as it is. It only ever adds to the screen. *)
Theorem callback_marks_sent_only_for_queued_packet
    (fuel : nat) (message : ev_t) (k : Sketch) :
  message <> EV_RESPONSE ->
  port_byte_readable (LMIC (ttn k)) ->
  exists k',
    callback fuel message k = Some (inr k') /\
    ttn k'
    = (if bool_decide (message = EV_TXCOMPLETE) && packetQueued (ttn k)
       then set_packet true false (ttn k) else ttn k) /\
    autoScaleTX k' = autoScaleTX k /\
    adjusted_SEND_INTERVAL k' = adjusted_SEND_INTERVAL k /\
    (exists msgs, screen k' = screen k ++ msgs).
Proof.
  intros Hne Hrd. unfold port_byte_readable in Hrd.
  destruct message; try done; unfold callback; simpl;
    try (eexists; split; [done|]; repeat split; try done;
         (by eexists [_]) || (exists []; by rewrite app_nil_r)).
  destruct (packetQueued (ttn k)); simpl.
  - destruct (Z.eqb_spec (dataLen (LMIC (ttn k))) 6) as [E|E]; simpl.
    + specialize (Hrd E).
      destruct (Z.leb_spec 0 (dataBeg (LMIC (ttn k)) - 1)); [|lia].
      destruct (Z.ltb_spec (dataBeg (LMIC (ttn k)) - 1)
                  (Z.of_nat (length (frame (LMIC (ttn k)))))); [|lia].
      simpl. eexists; split; [done|]; repeat split; try done. by eexists [_].
    + eexists; split; [done|]; repeat split; try done. by eexists [_].
  - eexists; split; [done|]; repeat split; try done.
    exists []; by rewrite app_nil_r.
Qed.

Lemma callback_marks_sent_only_for_queued_packet_witness :
  exists k',
    callback 1 EV_TXCOMPLETE
      (sketch_of (set_packet false true (booted 0 store_empty 0)))
    = Some (inr k') /\
    packetSent (ttn k') = true /\ packetQueued (ttn k') = false.
Proof.
  destruct (callback_marks_sent_only_for_queued_packet 1 EV_TXCOMPLETE
              (sketch_of (set_packet false true (booted 0 store_empty 0))))
    as (k' & H1 & H2 & _).
  - discriminate.
  - intros H. vm_compute in H. discriminate.
  - exists k'. split; [exact H1|]. rewrite H2. split; reflexivity.
Defined.

(** X13. What the screen shows about joining: on EV_JOINING the observer
    prints "Joined Helium!", on EV_JOINED it prints nothing, and the text
    "Helium joining..." is never printed, whatever the event. *)
Theorem callback_join_messages (fuel : nat) (k : Sketch) :
  (exists k', callback fuel EV_JOINING k = Some (inr k') /\
              screen k' = screen k ++ [line "Joined Helium!"]) /\
  (exists k', callback fuel EV_JOINED k = Some (inr k') /\
              screen k' = screen k) /\
  (forall message k',
     callback fuel message k = Some (inr k') ->
     forall msg, msg ∈ screen k' -> msg ∉ screen k ->
                 msg <> line "Helium joining...").
Proof.
  split; [by eexists|]. split; [by eexists|].
  intros message k' H msg Hin Hnot ->.
  destruct message; unfold callback in H; simpl in H;
    try (inversion H; subst k'; simpl in Hin;
         apply elem_of_app in Hin as [Hin|Hin]; [done|];
         apply list_elem_of_singleton in Hin; discriminate Hin);
    try (inversion H; subst k'; done).
  - (* EV_TXCOMPLETE *)
    destruct (packetQueued (ttn k)); simpl in H.
    + destruct (_ && _); inversion H; subst k'. simpl in Hin.
      apply elem_of_app in Hin as [Hin|Hin]; [done|].
      apply list_elem_of_singleton in Hin. discriminate Hin.
    + inversion H; subst k'. done.
  - (* EV_RESPONSE *)
    destruct (ttn_response _ _ _ _) as [[e|data]|]; try done.
    destruct (print_response_loop _ _ _ _ _) as [[e|k1]|] eqn:E; try done.
    inversion H; subst k'; clear H.
    apply print_response_loop_appends in E as (_ & bs & Hs).
    simpl in Hin, Hs. rewrite Hs in Hin.
    rewrite !elem_of_app in Hin.
    destruct Hin as [[[Hin|Hin]|Hin]|Hin]; [done| | |].
    + apply list_elem_of_singleton in Hin. discriminate Hin.
    + apply list_elem_of_fmap in Hin as (b & Hb & _).
      unfold snprintf_02X in Hb. discriminate Hb.
    + apply list_elem_of_singleton in Hin. discriminate Hin.
Qed.

Lemma ttn_response_exact_buffer fuel len s :
  downlink_in_frame (LMIC s) ->
  (Z.to_nat (dataLen (LMIC s)) < fuel)%nat ->
  ttn_response fuel (replicate (Z.to_nat (dataLen (LMIC s))) x00) len s
  = Some (inr (downlink (LMIC s))).
Proof.
  intros Hwf Hfuel. unfold ttn_response.
  pose proof (ttn_response_loop_returns (LMIC s)
                (replicate (Z.to_nat (dataLen (LMIC s))) x00) fuel 0%nat Hwf)
    as H.
  change (Z.of_nat 0) with 0 in H. rewrite take_0, drop_0 in H.
  simpl app in H. rewrite H by (rewrite ?length_replicate; lia).
  rewrite length_replicate, Nat.leb_refl.
  rewrite drop_ge by (rewrite length_replicate; lia).
  by rewrite app_nil_r.
Qed.

(** X14. On EV_RESPONSE the observer of the sketch copies the downlink into
    an array of exactly [ttn_response_len()] bytes, so the copy stays in
    bounds, and prints every byte of the payload as two hexadecimal
    digits between the heading and a line break; the state of the wrapper
    is not touched. *)
Theorem callback_prints_downlink_in_hex (fuel : nat) (k : Sketch) :
  downlink_in_frame (LMIC (ttn k)) ->
  (Z.to_nat (dataLen (LMIC (ttn k))) < fuel)%nat ->
  exists k',
    callback fuel EV_RESPONSE k = Some (inr k') /\
    screen k'
    = screen k ++ ["[Helium] Response: "]
      ++ map snprintf_02X (downlink (LMIC (ttn k))) ++ [nl] /\
    ttn k' = ttn k /\
    map parse_hex2 (map snprintf_02X (downlink (LMIC (ttn k))))
    = map (fun b => Some (Z.of_N (Byte.to_N b))) (downlink (LMIC (ttn k))).
Proof.
  intros Hwf Hfuel. unfold callback. simpl.
  unfold ttn_response_len.
  rewrite ttn_response_exact_buffer by done.
  pose proof (downlink_length _ Hwf) as Hlen.
  destruct Hwf as (_ & Hl & _). unfold is_u8 in Hl.
  change 0 with (Z.of_nat 0).
  rewrite print_response_loop_prints by (simpl; lia).
  eexists. split; [done|]. simpl. rewrite drop_0.
  split; [by rewrite <- !app_assoc|]. split; [done|].
  rewrite map_map. apply map_ext. intros b.
  unfold snprintf_02X. apply parse_hex2_digits.
  pose proof (Byte.to_N_bounded b). lia.
Qed.

Lemma callback_prints_downlink_in_hex_witness :
  exists k',
    callback 7 EV_RESPONSE (sketch_of (received (booted 0 store_empty 0)))
    = Some (inr k') /\
    screen k'
    = ["[Helium] Response: "; "0A"; "0B"; "0C"; "0D"; "0E"; "0F"; nl].
Proof.
  destruct (callback_prints_downlink_in_hex 7
              (sketch_of (received (booted 0 store_empty 0))))
    as (k' & H1 & H2 & _).
  - unfold downlink_in_frame, is_u8. repeat split; by vm_compute.
  - vm_compute. lia.
  - exists k'. split; [exact H1|]. rewrite H2. reflexivity.
Defined.

(** ** Going to sleep *)

Lemma sleep_for_u32 cfg t1 t2 : is_u32 (sleep_for cfg t1 t2).
Proof. unfold sleep_for. case_match; apply wrap32_u32. Qed.

Lemma sleep_for_range cfg t1 t2 :
  0 < SEND_INTERVAL cfg <= UINT32_MAX -> 0 <= t2 ->
  t2 < SEND_INTERVAL cfg \/ SEND_INTERVAL cfg <= t1 ->
  0 < sleep_for cfg t1 t2 <= SEND_INTERVAL cfg.
Proof.
  intros HSI H2 Hc. unfold sleep_for.
  rewrite (wrap32_small (SEND_INTERVAL cfg))
    by (unfold is_u32, UINT32_MAX in *; lia).
  unfold wrap32, UINT32_MAX in *.
  destruct (Z.ltb_spec t1 (SEND_INTERVAL cfg)); [|lia].
  rewrite Z.mod_small; lia.
Qed.

(** X15. What [sleep] hands to [doDeepSleep] is armed as it is: the
    milliseconds are a 32-bit value and the timer is set to a thousand
    times that, which fits the 64-bit argument without wrapping; the
    announced seconds are the milliseconds divided by 1000; and the
    wake-up mask selects the button pin and no other. The timer lies
    between 1 ms and SEND_INTERVAL when the second reading of the clock
    in [sleep] is below SEND_INTERVAL or the first one is not; when the
    clock passes SEND_INTERVAL between the two readings the timer is
    armed for more than SEND_INTERVAL. *)
Theorem sleep_arms_timer_without_overflow (b : Build) (dt : Z) (s : State) :
  SLEEP_BETWEEN_MESSAGES (base b) = true ->
  0 < SEND_INTERVAL (base b) <= UINT32_MAX ->
  0 <= BUTTON_PIN b < 64 ->
  let t1 := millis (if ssd1306_found s
                    then delay (MESSAGE_TO_SLEEP_DELAY (base b)) s else s) in
  let t2 := wrap32 (t1 + dt) in
  exists msec,
    sleep (base b) dt s = Some msec /\
    msec = sleep_for (base b) t1 t2 /\
    0 <= msec <= UINT32_MAX /\
    timer_us (doDeepSleep b msec) = 1000 * msec /\
    (t2 < SEND_INTERVAL (base b) \/ SEND_INTERVAL (base b) <= t1 ->
     1000 <= timer_us (doDeepSleep b msec)
     <= 1000 * SEND_INTERVAL (base b)) /\
    (t1 < SEND_INTERVAL (base b) < t2 ->
     1000 * SEND_INTERVAL (base b) < timer_us (doDeepSleep b msec)) /\
    announced_seconds (doDeepSleep b msec) = msec / 1000 /\
    (forall i, 0 <= i ->
       Z.testbit (ext1_mask (doDeepSleep b msec)) i
       = bool_decide (i = BUTTON_PIN b)).
Proof.
  intros Hs HSI Hpin t1 t2.
  exists (sleep_for (base b) t1 t2).
  split; [unfold sleep; by rewrite Hs|]. split; [done|].
  pose proof (sleep_for_u32 (base b) t1 t2) as Hu.
  assert (Ht2 : 0 <= t2) by (pose proof (wrap32_u32 (t1 + dt)) as [? _]; done).
  set (msec := sleep_for (base b) t1 t2) in *.
  unfold is_u32 in Hu. split; [done|].
  assert (Ht : timer_us (doDeepSleep b msec) = 1000 * msec).
  { unfold doDeepSleep, wrap64. simpl. unfold UINT32_MAX in Hu.
    rewrite Z.mod_small; lia. }
  rewrite Ht. split; [done|]. split; [|split; [|split; [done|]]].
  - intros Hc.
    pose proof (sleep_for_range (base b) t1 t2 HSI Ht2 Hc). fold msec in H.
    lia.
  - intros [Hlt Hgt]. unfold msec, sleep_for.
    rewrite (wrap32_small (SEND_INTERVAL (base b)))
      by (unfold is_u32, UINT32_MAX in *; lia).
    destruct (Z.ltb_spec t1 (SEND_INTERVAL (base b))); [|lia].
    pose proof (wrap32_u32 (t1 + dt)) as [_ Hle]. fold t2 in Hle.
    unfold wrap32, UINT32_MAX in *.
    rewrite <- (Z.mod_unique (SEND_INTERVAL (base b) - t2) 4294967296 (-1)
                  (4294967296 + SEND_INTERVAL (base b) - t2)); lia.
  - intros i Hi. unfold doDeepSleep, wrap64. simpl.
    change 18446744073709551616 with (2 ^ 64).
    rewrite Z.mod_small.
    + rewrite Z.shiftl_1_l, Z.pow2_bits_eqb by lia.
      destruct (Z.eqb_spec (BUTTON_PIN b) i); case_bool_decide; (done || lia).
    + rewrite Z.shiftl_1_l. split; [apply Z.pow_nonneg; lia|].
      apply Z.pow_lt_mono_r; lia.
Qed.

Lemma sleep_arms_timer_without_overflow_witness :
  exists msec,
    sleep cfg_otaa 2 (booted 0 store_empty 7500) = Some msec /\
    timer_us (doDeepSleep build_otaa msec) = 1000 * msec /\
    1000 <= timer_us (doDeepSleep build_otaa msec) <= 20000000.
Proof.
  destruct (sleep_arms_timer_without_overflow build_otaa 2
              (booted 0 store_empty 7500)) as (msec & H1 & _ & _ & H2 & H3 & _).
  - reflexivity.
  - simpl. unfold UINT32_MAX. lia.
  - simpl. lia.
  - exists msec. split; [exact H1|]. split; [exact H2|].
    apply H3. left. vm_compute. reflexivity.
Defined.

(** ** One round of [loop] *)

Lemma sleep_ignores_packet_flags cfg dt sent queued s :
  sleep cfg dt (set_packet sent queued s) = sleep cfg dt s.
Proof. unfold sleep. simpl. by destruct (ssd1306_found s). Qed.

Lemma loop_button_not_asleep b fuel button_low payload k r :
  loop_button b fuel button_low payload k = Some r ->
  forall plan, r <> Asleep plan.
Proof.
  unfold loop_button. intros H plan ->.
  repeat (case_match; try discriminate H).
  destruct (trySendNew _ _ _ _); discriminate H.
Qed.

(** X16. In a build that sleeps between messages, the EV_TXCOMPLETE of a
    queued packet sends the device to sleep in the next round of [loop],
    before the button is looked at, for the time that [sleep] computes;
    an EV_TXCOMPLETE that finds no packet queued (the radio's own
    traffic) does not. *)
Theorem completed_send_leads_to_sleep
    (b : Build) (dt : Z) (fuel : nat) (button_low : bool)
    (payload : list byte) (k : Sketch) :
  SLEEP_BETWEEN_MESSAGES (base b) = true ->
  port_byte_readable (LMIC (ttn k)) ->
  exists k1,
    callback fuel EV_TXCOMPLETE k = Some (inr k1) /\
    (packetQueued (ttn k) = true ->
     exists msec,
       sleep (base b) dt (ttn k) = Some msec /\
       loop b dt fuel button_low payload k1 = Some (Asleep (doDeepSleep b msec))) /\
    (packetQueued (ttn k) = false -> packetSent (ttn k) = false ->
     forall r, loop b dt fuel button_low payload k1 = Some r ->
               forall plan, r <> Asleep plan).
Proof.
  intros Hs Hrd.
  destruct (callback_ttn_after fuel EV_TXCOMPLETE k) as (k1 & H1 & Ht);
    [discriminate|done|].
  exists k1. split; [done|]. simpl in Ht. split.
  - intros Hq. rewrite Hq in Ht.
    assert (Hm : exists msec, sleep (base b) dt (ttn k) = Some msec).
    { unfold sleep. rewrite Hs. by eexists. }
    destruct Hm as [msec Hm]. exists msec. split; [done|].
    unfold loop. rewrite Ht.
    change (packetSent (set_packet true false (ttn k))) with true.
    cbv iota. cbn [ttn with_ttn]. rewrite Ht.
    by rewrite !sleep_ignores_packet_flags, Hm.
  - intros Hq Hns r Hr. rewrite Hq in Ht.
    unfold loop in Hr. rewrite Ht, Hns in Hr.
    by apply (loop_button_not_asleep _ _ _ _ _ _ Hr).
Qed.

Lemma completed_send_leads_to_sleep_witness :
  exists k1 msec,
    callback 1 EV_TXCOMPLETE
      (sketch_of (set_packet false true (booted 0 store_empty 7500)))
    = Some (inr k1) /\
    loop build_otaa 0 1 false [] k1 = Some (Asleep (doDeepSleep build_otaa msec))
    /\ msec = 12500.
Proof.
  destruct (completed_send_leads_to_sleep build_otaa 0 1 false []
              (sketch_of (set_packet false true (booted 0 store_empty 7500))))
    as (k1 & H1 & H2 & _).
  - reflexivity.
  - intros H. vm_compute in H. discriminate.
  - destruct H2 as (msec & Hm & Hl); [reflexivity|].
    exists k1, msec. split; [exact H1|]. split; [exact Hl|].
    vm_compute in Hm. by injection Hm as <-.
Defined.

Lemma prefs_ttn_erase_prefs s :
  prefs (ttn_erase_prefs s)
  = if nvs_rw_ok (prefs s) then p_clear (prefs s) else prefs s.
Proof. unfold ttn_erase_prefs, p_begin. by destruct (nvs_rw_ok (prefs s)). Qed.

#[local] Arguments trySendNew : simpl never.

(** X17. How long the button was held decides what its release does. For a
    press that begins at [t0] (with [t0 + 5000] still a 32-bit time) and
    ends at [t1]: held for more than five seconds it erases the store and
    restarts, if the build allows discarding, and otherwise only says so;
    held for more than one second it switches the scaling of the send
    interval over, putting the interval back to SEND_INTERVAL when
    scaling goes off; anything shorter sets [justSendNow] and tries to
    send. While the button stays down nothing happens. *)
Theorem press_duration_selects_action
    (b : Build) (dt : Z) (fuel : nat) (payload : list byte) (k : Sketch)
    (t0 t1 : Z) :
  packetSent (ttn k) = false -> wasPressed k = false ->
  0 <= t0 -> t0 + 5000 <= UINT32_MAX ->
  registry_fits (ttn k) ->
  (length (_lmic_callbacks (ttn k)) < fuel)%nat ->
  exists k1,
    loop b dt fuel true payload (at_time t0 k) = Some (Running k1) /\
    wasPressed k1 = true /\ minPressMs k1 = t0 /\
    (forall t, loop b dt fuel true payload (at_time t k1)
               = Some (Running (at_time t k1))) /\
    (t0 + 5000 < t1 -> PREFS_DISCARD b = true ->
     exists k2,
       loop b dt fuel false payload (at_time t1 k1) = Some (Restarted k2) /\
       prefs (ttn k2) = prefs (ttn_erase_prefs (ttn k))) /\
    (t0 + 5000 < t1 -> PREFS_DISCARD b = false ->
     exists k2,
       loop b dt fuel false payload (at_time t1 k1) = Some (Running k2) /\
       ttn k2 = set_clock t1 (ttn k) /\ autoScaleTX k2 = autoScaleTX k /\
       wasPressed k2 = false) /\
    (t0 + 1000 < t1 <= t0 + 5000 ->
     exists k2,
       loop b dt fuel false payload (at_time t1 k1) = Some (Running k2) /\
       ttn k2 = set_clock t1 (ttn k) /\
       autoScaleTX k2 = negb (autoScaleTX k) /\
       adjusted_SEND_INTERVAL k2
       = (if autoScaleTX k then SEND_INTERVAL (base b)
          else adjusted_SEND_INTERVAL k) /\
       wasPressed k2 = false) /\
    (t1 <= t0 + 1000 ->
     exists k2,
       loop b dt fuel false payload (at_time t1 k1) = Some (Running k2) /\
       trySendNew (base b) fuel payload (set_clock t1 (ttn k))
       = Some (ttn k2) /\
       justSendNow k2 = true /\ autoScaleTX k2 = autoScaleTX k /\
       wasPressed k2 = false).
Proof.
  intros Hns Hnp Ht0 Hmax Hfit Hfuel.
  assert (W5 : wrap32 (t0 + 5000) = t0 + 5000).
  { apply wrap32_small. unfold is_u32. lia. }
  assert (W1 : wrap32 (t0 + 1000) = t0 + 1000).
  { apply wrap32_small. unfold is_u32. lia. }
  assert (Hs : exists s',
             trySendNew (base b) fuel payload (set_clock t1 (ttn k)) = Some s').
  { unfold trySendNew. rewrite ttn_send_returns; [|done|done]. by eexists. }
  destruct Hs as [s' Hs'].
  exists (set_press true t0 (at_time t0 k)).
  split. { unfold loop, loop_button. simpl. by rewrite Hns, Hnp. }
  split; [done|]. split; [done|].
  split. { intros t. unfold loop, loop_button. simpl. by rewrite Hns. }
  split; [|split; [|split]].
  - intros Hlong Hd. unfold loop, loop_button. simpl. rewrite Hns. simpl.
    rewrite W5. destruct (Z.ltb_spec (t0 + 5000) t1); [|lia].
    rewrite Hd. eexists. split; [done|]. simpl.
    by rewrite !prefs_ttn_erase_prefs.
  - intros Hlong Hd. unfold loop, loop_button. simpl. rewrite Hns. simpl.
    rewrite W5. destruct (Z.ltb_spec (t0 + 5000) t1); [|lia].
    rewrite Hd. eexists. split; [done|]. done.
  - intros Hmid. unfold loop, loop_button. simpl. rewrite Hns. simpl.
    rewrite W5, W1. destruct (Z.ltb_spec (t0 + 5000) t1); [lia|].
    destruct (Z.ltb_spec (t0 + 1000) t1); [|lia].
    destruct (autoScaleTX k); eexists; (split; [done|]); done.
  - intros Hshort. unfold loop, loop_button. simpl. rewrite Hns. simpl.
    rewrite W5, W1. destruct (Z.ltb_spec (t0 + 5000) t1); [lia|].
    destruct (Z.ltb_spec (t0 + 1000) t1); [lia|].
    match goal with
    | |- context [trySendNew ?c ?f ?p ?x] =>
        change x with (set_clock t1 (ttn k))
    end.
    rewrite Hs'. simpl. eexists. split; [done|]. done.
Qed.

Lemma press_duration_selects_action_witness :
  exists k1 k2,
    loop build_otaa 0 2 true [x03; x88]
         (at_time 4000 (sketch_of (booted 0 store_empty 0)))
    = Some (Running k1) /\
    loop build_otaa 0 2 false [x03; x88] (at_time 6500 k1)
    = Some (Running k2) /\
    autoScaleTX k2 = true.
Proof.
  destruct (press_duration_selects_action build_otaa 0 2 [x03; x88]
              (sketch_of (booted 0 store_empty 0)) 4000 6500)
    as (k1 & H1 & _ & _ & _ & _ & _ & H2 & _).
  - reflexivity.
  - reflexivity.
  - lia.
  - unfold UINT32_MAX. lia.
  - unfold registry_fits. simpl. lia.
  - simpl. lia.
  - destruct H2 as (k2 & H3 & _ & H4 & _); [lia|].
    exists k1, k2. split; [exact H1|]. split; [exact H3|exact H4].
Defined.

(** ** The two records of the store *)

Lemma do_send_keeps_other_keys fuel rq s s' key :
  do_send fuel rq s = Some s' -> key <> "count" ->
  nvs_data (prefs s') !! key = nvs_data (prefs s) !! key /\
  nvs_ro_ok (prefs s') = nvs_ro_ok (prefs s) /\
  nvs_rw_ok (prefs s') = nvs_rw_ok (prefs s).
Proof.
  intros H Hk. rewrite (do_send_prefs _ _ _ _ H).
  destruct (_ && _); [|done].
  unfold p_putUInt, p_put. simpl. by rewrite lookup_insert_ne.
Qed.

(** X18. The counter and the session do not disturb each other in the store:
    whatever sends follow, every key other than "count" keeps its value,
    so a session that was stored is still restored by OTAA activation
    after them; and storing a session, or saving the counter by hand,
    leaves the other record as it was. *)
Theorem counter_writes_keep_stored_session
    (cfg : Config) (fuel fuel2 : nat) (rqs : list SendReq) (s s2 : State)
    (nk ak : list byte) :
  ACTIVATION cfg = USE_OTAA ->
  registry_fits s -> (length (_lmic_callbacks s) < fuel)%nat ->
  registry_fits s2 -> (length (_lmic_callbacks s2) < fuel2)%nat ->
  nvs_ro_ok (prefs s) = true ->
  nvs_data (prefs s) !! "nwkKey" = Some (PBytes nk) -> length nk = 16%nat ->
  nvs_data (prefs s) !! "artKey" = Some (PBytes ak) -> length ak = 16%nat ->
  exists s',
    run_sends fuel rqs s = Some s' /\
    (forall key, key <> "count" ->
                 nvs_data (prefs s') !! key = nvs_data (prefs s) !! key) /\
    (prefs s2 = prefs s' ->
     exists s3,
       ttn_join cfg fuel2 s2 = Some s3 /\
       session (LMIC s3)
       = Some {| netid := p_getUInt true "netId" UINT32_MAX (prefs s);
                 devaddr := p_getUInt true "devAddr" UINT32_MAX (prefs s);
                 nwkKey := nk; artKey := ak |}) /\
    stored_count (prefs (persist_session s)) = stored_count (prefs s) /\
    (forall key, key <> "count" ->
       nvs_data (prefs (ttn_save_counter s)) !! key
       = nvs_data (prefs s) !! key).
Proof.
  intros Hmode Hfit Hfuel Hfit2 Hfuel2 Hro Hnk Hnl Hak Hal.
  assert (Hrun : exists s',
    run_sends fuel rqs s = Some s' /\
    (forall key, key <> "count" ->
                 nvs_data (prefs s') !! key = nvs_data (prefs s) !! key) /\
    nvs_ro_ok (prefs s') = nvs_ro_ok (prefs s)).
  { clear Hro Hnk Hak. revert s Hfit Hfuel.
    induction rqs as [|rq rqs IH]; intros s Hfit Hfuel; simpl.
    - by exists s.
    - destruct (do_send_returns fuel rq s Hfit Hfuel) as (s1 & H1 & Hcb & _).
      rewrite H1. simpl.
      destruct (IH s1) as (s' & Hr & Hk & Hro').
      + unfold registry_fits. by rewrite Hcb.
      + by rewrite Hcb.
      + exists s'. split; [done|]. split.
        * intros key Hkey. rewrite Hk by done.
          by apply (do_send_keeps_other_keys _ _ _ _ _ H1).
        * rewrite Hro'.
          by apply (do_send_keeps_other_keys _ _ _ _ "netId" H1). }
  destruct Hrun as (s' & Hr & Hk & Hro').
  exists s'. split; [done|]. split; [done|]. split; [|split].
  - intros Hp.
    destruct (ttn_join_otaa_restores cfg fuel2 s2 nk ak)
      as (s3 & H3 & Hs3 & _); try done.
    + by rewrite Hp, Hro'.
    + by rewrite Hp, Hk.
    + by rewrite Hp, Hk.
    + exists s3. split; [done|]. rewrite Hs3. unfold p_getUInt.
      by rewrite Hp, !Hk.
  - unfold persist_session, p_begin. destruct (nvs_rw_ok (prefs s)); [|done].
    cbn [prefs with_prefs].
    by destruct (lookup_after_persist (LMIC_getSessionKeys (LMIC s)) (prefs s))
      as (_ & _ & _ & _ & Hc & _); unfold stored_count; rewrite Hc.
  - intros key Hkey. unfold ttn_save_counter, p_begin.
    destruct (nvs_rw_ok (prefs s)); [|done].
    unfold p_putUInt, p_put. simpl. by rewrite lookup_insert_ne.
Qed.

Lemma counter_writes_keep_stored_session_witness :
  exists s' s3,
    run_sends 2 [req_idle 1000; req_idle 400000]
              (booted 5 store_keys_only 0) = Some s' /\
    ttn_join cfg_otaa 2 (booted 0 (prefs s') 0) = Some s3 /\
    nwkKey <$> session (LMIC s3) = Some (replicate 16 xa1).
Proof.
  destruct (counter_writes_keep_stored_session cfg_otaa 2 2
              [req_idle 1000; req_idle 400000]
              (booted 5 store_keys_only 0)
              (booted 0
                 (p_putUInt "count" 6
                    (p_putUInt "count" 5 store_keys_only)) 0)
              (replicate 16 xa1) (replicate 16 xb2))
    as (s' & H1 & _ & H2 & _).
  - reflexivity.
  - unfold registry_fits. simpl. lia.
  - simpl. lia.
  - unfold registry_fits. simpl. lia.
  - simpl. lia.
  - reflexivity.
  - vm_compute. reflexivity.
  - reflexivity.
  - vm_compute. reflexivity.
  - reflexivity.
  - assert (Hp : prefs s' = p_putUInt "count" 6
                              (p_putUInt "count" 5 store_keys_only)).
    { vm_compute in H1. injection H1 as <-. vm_compute. reflexivity. }
    destruct H2 as (s3 & H3 & H4); [by rewrite Hp|].
    exists s', s3. split; [exact H1|]. rewrite Hp. split; [exact H3|].
    by rewrite H4.
Defined.

(** ** Between a boot and the first send *)








